(** * The download router: [src/routers/download.py]

    A shallow embedding of the module's two functions,
    [validate_file_content] and the endpoint [download_ingest], together
    with the parts of the Python runtime they lean on: text strings and
    their UTF-8 encoding, [str.strip], [str.endswith], the exception
    classes met on the way, [try]/[except] dispatch, the [logging] calls
    and the four filesystem operations of the handler
    ([os.path.exists], [os.listdir], [os.path.getsize], [open(..., "r")]
    followed by [read]).

    The handler is written once, over an abstract operating system
    ([OS]); three instances are then used: an in-memory filesystem
    ([MemFS]), a wrapper that records every call made ([traced]) and
    arbitrary instances, which stand for executions in which the
    underlying storage changes between two calls. *)

From Stdlib Require Import ZArith List String Ascii Bool Lia.
From Stdlib Require Import DecimalString DecimalZ DecimalPos.
Import ListNotations.

Local Open Scope string_scope.
Local Open Scope Z_scope.

(* ================================================================== *)
(** * Python runtime                                                   *)
(* ================================================================== *)

Module Py.

(** A byte is an integer of [0..255]; a text string ([str]) is a sequence
    of code points.  File names, paths and messages are kept as [string]. *)
Definition bytes := list Z.
Definition pystr := list Z.

(** [str(n)] for an integer. *)
Definition str_of_Z (n : Z) : string := NilZero.string_of_int (Z.to_int n).

(** [len(x)] as a Python integer. *)
Definition len {A : Type} (l : list A) : Z := Z.of_nat (List.length l).

(** [s.endswith(suffix)]. *)
Definition endswith (s suffix : string) : bool :=
  let n := String.length s in
  let k := String.length suffix in
  (k <=? n)%nat && String.eqb (substring (n - k) k s) suffix.

(** [ch.isspace()]: the code points CPython's [_PyUnicode_IsWhitespace]
    accepts. *)
Definition isspace (c : Z) : bool :=
  ((0x09 <=? c) && (c <=? 0x0D)) || ((0x1C <=? c) && (c <=? 0x20))
  || (c =? 0x85) || (c =? 0xA0) || (c =? 0x1680)
  || ((0x2000 <=? c) && (c <=? 0x200A))
  || (c =? 0x2028) || (c =? 0x2029) || (c =? 0x202F) || (c =? 0x205F)
  || (c =? 0x3000).

Fixpoint lstrip (s : pystr) : pystr :=
  match s with
  | c :: s' => if isspace c then lstrip s' else s
  | [] => []
  end.

Definition rstrip (s : pystr) : pystr := rev (lstrip (rev s)).

(** [s.strip()]: leading and trailing whitespace removed. *)
Definition strip (s : pystr) : pystr := rstrip (lstrip s).

(** Truth value of a string ([if s], [not s]): non-empty. *)
Definition truthy (s : pystr) : bool :=
  match s with [] => false | _ :: _ => true end.

(** ** UTF-8

    [encode_char c] is the UTF-8 form of one code point.  A surrogate
    ([U+D800..U+DFFF]) has none: there [str.encode] raises
    [UnicodeEncodeError]. *)
Definition encode_char (c : Z) : option bytes :=
  if c <? 0 then None
  else if c <? 0x80 then Some [c]
  else if c <? 0x800 then Some [0xC0 + c / 64; 0x80 + c mod 64]
  else if c <? 0x10000 then
    if (0xD800 <=? c) && (c <=? 0xDFFF) then None
    else Some [0xE0 + c / 4096; 0x80 + (c / 64) mod 64; 0x80 + c mod 64]
  else if c <? 0x110000 then
    Some [0xF0 + c / 262144; 0x80 + (c / 4096) mod 64;
          0x80 + (c / 64) mod 64; 0x80 + c mod 64]
  else None.

(** [s.encode('utf-8')]; [None] stands for [UnicodeEncodeError]. *)
Fixpoint encode_utf8 (s : pystr) : option bytes :=
  match s with
  | [] => Some []
  | c :: s' =>
      match encode_char c, encode_utf8 s' with
      | Some b, Some bs => Some (b ++ bs)%list
      | _, _ => None
      end
  end.

Definition is_cont (b : Z) : bool := (0x80 <=? b) && (b <=? 0xBF).

(** The first code point of a UTF-8 byte sequence, in strict mode, and
    the bytes after it: shortest forms only, no surrogate, nothing above
    [U+10FFFF]. *)
Definition decode_one (bs : bytes) : option (Z * bytes) :=
  match bs with
  | [] => None
  | b0 :: t0 =>
      if (0 <=? b0) && (b0 <? 0x80) then Some (b0, t0)
      else if (0xC2 <=? b0) && (b0 <=? 0xDF) then
        match t0 with
        | b1 :: t1 =>
            if is_cont b1
            then Some ((b0 - 0xC0) * 64 + (b1 - 0x80), t1)
            else None
        | _ => None
        end
      else if (0xE0 <=? b0) && (b0 <=? 0xEF) then
        match t0 with
        | b1 :: b2 :: t2 =>
            if is_cont b1 && is_cont b2
               && negb ((b0 =? 0xE0) && (b1 <? 0xA0))
               && negb ((b0 =? 0xED) && (0xA0 <=? b1))
            then Some ((b0 - 0xE0) * 4096 + (b1 - 0x80) * 64 + (b2 - 0x80), t2)
            else None
        | _ => None
        end
      else if (0xF0 <=? b0) && (b0 <=? 0xF4) then
        match t0 with
        | b1 :: b2 :: b3 :: t3 =>
            if is_cont b1 && is_cont b2 && is_cont b3
               && negb ((b0 =? 0xF0) && (b1 <? 0x90))
               && negb ((b0 =? 0xF4) && (0x90 <=? b1))
            then Some ((b0 - 0xF0) * 262144 + (b1 - 0x80) * 4096
                       + (b2 - 0x80) * 64 + (b3 - 0x80), t3)
            else None
        | _ => None
        end
      else None
  end.

(** Code point after code point; [fuel] bounds the number of code
    points, and the number of bytes is always enough. *)
Fixpoint decode_loop (fuel : nat) (bs : bytes) : option pystr :=
  match bs, fuel with
  | [], _ => Some []
  | _ :: _, O => None
  | _ :: _, S fuel' =>
      match decode_one bs with
      | Some (c, rest) =>
          match decode_loop fuel' rest with
          | Some s => Some (c :: s)
          | None => None
          end
      | None => None
      end
  end.

(** [bytes.decode('utf-8')]; [None] stands for [UnicodeDecodeError]. *)
Definition decode_utf8 (bs : bytes) : option pystr :=
  decode_loop (List.length bs) bs.

(** Universal newlines, the default of a file opened in text mode: on
    input each of ["\r\n"] and a lone ["\r"] is handed over as ["\n"]. *)
Fixpoint universal_newlines (s : pystr) : pystr :=
  match s with
  | [] => []
  | c :: s' =>
      if c =? 0x0D then
        match s' with
        | c' :: s'' => if c' =? 0x0A then 0x0A :: universal_newlines s''
                       else 0x0A :: universal_newlines s'
        | [] => [0x0A]
        end
      else c :: universal_newlines s'
  end.

(** ** Exceptions

    Every exception carries the text [str(e)] shows; an [HTTPException]
    carries its [status_code] and [detail].  [OSError] stands for the
    subclasses of [OSError] other than the two named ones
    ([NotADirectoryError], [IsADirectoryError], an I/O error, ...), and
    [Exception] for any other subclass of [Exception]. *)
Inductive exn : Type :=
| FileNotFoundError (msg : string)
| PermissionError (msg : string)
| OSError (msg : string)
| UnicodeDecodeError (msg : string)
| UnicodeEncodeError (msg : string)
| Exception (msg : string)
| HTTPException (status_code : Z) (detail : string).

(** The classes named by the [except] clauses of the module. *)
Inductive exn_class : Type :=
| ExFileNotFoundError
| ExPermissionError
| ExException.

(** [isinstance(e, cls)].  [HTTPException] derives from [Exception]
    directly, and from neither [FileNotFoundError] nor
    [PermissionError]. *)
Definition isinstance (e : exn) (cls : exn_class) : bool :=
  match cls, e with
  | ExFileNotFoundError, FileNotFoundError _ => true
  | ExPermissionError, PermissionError _ => true
  | ExException, _ => true
  | _, _ => false
  end.

(** The outcome of a call: a value, or a raised exception. *)
Inductive result (A : Type) : Type :=
| Return (a : A)
| Raise (e : exn).
Arguments Return {A} a.
Arguments Raise {A} e.

(** ** Logging *)
Inductive level : Type := INFO | WARNING | ERROR.

(** One record handed to the logger; [exc_info] is what
    [logger.exception] attaches. *)
Record log_record : Type := LogRecord {
  levelname : level;
  message : string;
  exc_info : option exn
}.

End Py.
Import Py.

(* ================================================================== *)
(** * The operating system seen by the handler                         *)
(* ================================================================== *)

(** The four filesystem operations of the module, over a world [W].
    Each hands back its answer and the world after the call.
    [os.path.exists] never raises (it answers [False] on any error);
    [open_read path] is [with open(path, "r") as f: f.read()]. *)
Record OS (W : Type) : Type := mkOS {
  os_path_exists : string -> W -> bool * W;
  os_listdir : string -> W -> result (list string) * W;
  os_path_getsize : string -> W -> result Z * W;
  open_read : string -> W -> result pystr * W
}.
Arguments os_path_exists {W} _ _ _.
Arguments os_listdir {W} _ _ _.
Arguments os_path_getsize {W} _ _ _.
Arguments open_read {W} _ _ _.

(** What a run of the handler threads along: the world and the log. *)
Record machine (W : Type) : Type := mkMachine {
  world : W;
  logs : list log_record
}.
Arguments mkMachine {W} _ _.
Arguments world {W} _.
Arguments logs {W} _.

(** Computations that read and change the machine and may raise. *)
Definition M (W A : Type) : Type := machine W -> result A * machine W.

Definition ret {W A} (a : A) : M W A := fun m => (Return a, m).

Definition bind {W A B} (c : M W A) (k : A -> M W B) : M W B :=
  fun m =>
    match c m with
    | (Return a, m') => k a m'
    | (Raise e, m') => (Raise e, m')
    end.

Definition raise {W A} (e : exn) : M W A := fun m => (Raise e, m).

Declare Scope py_scope.
Delimit Scope py_scope with py.
Notation "x <- c ;; k" := (bind c (fun x => k))
  (at level 61, c at next level, right associativity) : py_scope.
Notation "c ;; k" := (bind c (fun _ => k))
  (at level 61, right associativity) : py_scope.

(** [try: body except cls1: h1 except cls2: h2 ...]: the first clause
    whose class the raised exception is an instance of runs; an
    exception raised by a clause's own body is not offered to the other
    clauses. *)
Fixpoint dispatch {W A} (clauses : list (exn_class * (exn -> M W A)))
    (e : exn) : M W A :=
  match clauses with
  | [] => raise e
  | (cls, h) :: rest => if isinstance e cls then h e else dispatch rest e
  end.

Definition try_except {W A} (body : M W A)
    (clauses : list (exn_class * (exn -> M W A))) : M W A :=
  fun m =>
    match body m with
    | (Return a, m') => (Return a, m')
    | (Raise e, m') => dispatch clauses e m'
    end.

(** A call to the operating system. *)
Definition syscall {W A} (op : W -> A * W) : M W A :=
  fun m => let (a, w') := op (world m) in (Return a, mkMachine w' (logs m)).

(** A call to the operating system that may raise. *)
Definition syscall_exn {W A} (op : W -> result A * W) : M W A :=
  fun m => let (r, w') := op (world m) in (r, mkMachine w' (logs m)).

Definition emit {W} (lvl : level) (msg : string) (e : option exn) : M W unit :=
  fun m => (Return tt, mkMachine (world m) (logs m ++ [LogRecord lvl msg e])%list).

Definition logger_info {W} (msg : string) : M W unit := emit INFO msg None.
Definition logger_warning {W} (msg : string) : M W unit := emit WARNING msg None.
Definition logger_error {W} (msg : string) : M W unit := emit ERROR msg None.
(** [logger.exception(msg)]: level [ERROR], with the exception in hand. *)
Definition logger_exception {W} (msg : string) (e : exn) : M W unit :=
  emit ERROR msg (Some e).

(* ================================================================== *)
(** * The module                                                       *)
(* ================================================================== *)

(** [fastapi.responses.Response(content, media_type, headers)]; the
    status is 200 unless given. *)
Record Response : Type := mkResponse {
  status_code : Z;
  content : pystr;
  media_type : string;
  headers : list (string * string)
}.

(** The body sent: the content encoded with the response's charset,
    [utf-8]. *)
Definition body (r : Response) : option bytes := encode_utf8 (content r).

Definition MAX_FILE_SIZE_BYTES : Z := 50 * 1024 * 1024.

(** [validate_file_content(content)]: [Return None] when the content is
    valid, [Return (Some msg)] when it is not; it raises where
    [content.encode('utf-8')] does. *)
Definition validate_file_content (content : pystr) : result (option string) :=
  if negb (truthy (strip content)) then Return (Some "File is empty")
  else
    match encode_utf8 content with
    | None => Raise (UnicodeEncodeError "'utf-8' codec can't encode character")
    | Some encoded =>
        if len encoded >? MAX_FILE_SIZE_BYTES then
          Return (Some ("File size exceeds maximum limit of "
                        ++ str_of_Z (MAX_FILE_SIZE_BYTES / 1024 / 1024) ++ "MB"))
        else Return None
    end.

(** Truth value of an [Optional[str]] ([if error_msg:]). *)
Definition truthy_opt (o : option string) : bool :=
  match o with
  | None => false
  | Some s => negb (String.eqb s "")
  end.

Section Handler.

Context {W : Type}.
(** [config.TMP_BASE_PATH], defined outside the module. *)
Variable TMP_BASE_PATH : string.
Variable os : OS W.

Local Open Scope py_scope.

Definition lift {A} (r : result A) : M W A := fun m => (r, m).

(** The body of the [try] statement of [download_ingest]. *)
Definition download_ingest_body (digest_id : string) : M W Response :=
  let directory := TMP_BASE_PATH ++ "/" ++ digest_id in
  found <- syscall (os_path_exists os directory) ;;
  (if negb found then
     logger_warning ("Directory not found for digest_id: " ++ digest_id) ;;
     raise (HTTPException 404 "Digest directory not found")
   else ret tt) ;;
  entries <- syscall_exn (os_listdir os directory) ;;
  let txt_files := filter (fun f => endswith f ".txt") entries in
  match txt_files with
  | [] =>
      logger_warning
        ("No .txt files found in directory for digest_id: " ++ digest_id) ;;
      raise (HTTPException 404 "No text file found for this digest")
  | txt_files_0 :: _ =>
      let file_path := directory ++ "/" ++ txt_files_0 in
      file_size <- syscall_exn (os_path_getsize os file_path) ;;
      (if file_size >? MAX_FILE_SIZE_BYTES then
         logger_error ("File size " ++ str_of_Z file_size
                       ++ " exceeds limit for digest_id: " ++ digest_id) ;;
         raise (HTTPException 413 "File too large to download")
       else ret tt) ;;
      content <- syscall_exn (open_read os file_path) ;;
      error_msg <- lift (validate_file_content content) ;;
      (if truthy_opt error_msg then
         let msg := match error_msg with Some s => s | None => "None" end in
         logger_error ("Content validation failed for digest_id: "
                       ++ digest_id ++ " - " ++ msg) ;;
         raise (HTTPException 422 msg)
       else ret tt) ;;
      logger_info
        ("Successfully processed download request for digest_id: "
         ++ digest_id) ;;
      encoded <- lift (match encode_utf8 content with
                       | Some b => Return b
                       | None => Raise (UnicodeEncodeError
                                   "'utf-8' codec can't encode character")
                       end) ;;
      ret (mkResponse 200 content "text/plain"
             [("Content-Disposition", "attachment; filename=" ++ txt_files_0);
              ("Content-Length", str_of_Z (len encoded))])
  end.

(** [download_ingest(digest_id)]: the body under its three [except]
    clauses, in the order of the source. *)
Definition download_ingest (digest_id : string) : M W Response :=
  try_except (download_ingest_body digest_id)
    [ (ExFileNotFoundError, fun _ =>
         logger_error ("FileNotFoundError for digest_id: " ++ digest_id) ;;
         raise (HTTPException 404 "Digest not found"));
      (ExPermissionError, fun _ =>
         logger_error
           ("PermissionError accessing files for digest_id: " ++ digest_id) ;;
         raise (HTTPException 403 "Permission denied accessing digest"));
      (ExException, fun e =>
         logger_exception
           ("Unexpected error processing digest_id: " ++ digest_id) e ;;
         raise (HTTPException 500 "Internal server error")) ].

(** One request, from a world and an empty log. *)
Definition serve (digest_id : string) (w : W)
  : result Response * machine W :=
  download_ingest digest_id (mkMachine w []).

End Handler.

(** ** What the client sees

    The framework turns a returned [Response] into itself and a raised
    [HTTPException] into a response with its status and the JSON body
    [{"detail": ...}]; anything else raised would leave as a bare 500. *)
Definition http_status (r : result Response) : Z :=
  match r with
  | Return resp => status_code resp
  | Raise (HTTPException s _) => s
  | Raise _ => 500
  end.

Definition http_detail (r : result Response) : option string :=
  match r with
  | Raise (HTTPException _ d) => Some d
  | _ => None
  end.

(** The value of a header, by name. *)
Fixpoint header (name : string) (hs : list (string * string)) : option string :=
  match hs with
  | [] => None
  | (k, v) :: rest => if String.eqb k name then Some v else header name rest
  end.

(* ================================================================== *)
(** * A recording operating system                                     *)
(* ================================================================== *)

Inductive opname : Type := OpExists | OpListdir | OpGetsize | OpOpenRead.

(** One call made: the operation, the path it was given and the
    exception it raised, if any. *)
Record event : Type := Ev {
  ev_op : opname;
  ev_path : string;
  ev_raised : option exn
}.

Definition raised_by {A} (r : result A) : option exn :=
  match r with
  | Return _ => None
  | Raise e => Some e
  end.

(** [traced os] answers as [os] does and appends every call to a trace
    kept next to the world. *)
Definition traced {W} (os : OS W) : OS (W * list event) :=
  {| os_path_exists := fun p wt =>
       let (b, w') := os_path_exists os p (fst wt) in
       (b, (w', snd wt ++ [Ev OpExists p None])%list);
     os_listdir := fun p wt =>
       let (r, w') := os_listdir os p (fst wt) in
       (r, (w', snd wt ++ [Ev OpListdir p (raised_by r)])%list);
     os_path_getsize := fun p wt =>
       let (r, w') := os_path_getsize os p (fst wt) in
       (r, (w', snd wt ++ [Ev OpGetsize p (raised_by r)])%list);
     open_read := fun p wt =>
       let (r, w') := open_read os p (fst wt) in
       (r, (w', snd wt ++ [Ev OpOpenRead p (raised_by r)])%list) |}.

(** The calls of one request, in order. *)
Definition calls {W} (base : string) (os : OS W) (digest_id : string) (w : W)
  : list event :=
  snd (world (snd (serve base (traced os) digest_id (w, [])))).

Definition is_read (ev : event) : bool :=
  match ev_op ev with OpOpenRead => true | _ => false end.

(** An operating system whose calls all leave the world as it was. *)
Definition read_only {W} (os : OS W) : Prop :=
  (forall p w, snd (os_path_exists os p w) = w) /\
  (forall p w, snd (os_listdir os p w) = w) /\
  (forall p w, snd (os_path_getsize os p w) = w) /\
  (forall p w, snd (open_read os p w) = w).

(* ================================================================== *)
(** * An in-memory filesystem                                          *)
(* ================================================================== *)

Module MemFS.

(** A node is a regular file or a directory.  [st_size] is the size the
    filesystem reports for it, kept apart from the bytes a read yields;
    a directory lists its entries in listing order.  [readable] and
    [listable] stand for the permission to read a file and to list a
    directory. *)
Inductive node : Type :=
| File (st_size : Z) (data : bytes) (readable : bool)
| Dir (st_size : Z) (entries : list string) (listable : bool).

(** The filesystem: paths, looked up as written, with their nodes.  An
    entry of a directory with no node of its own behaves as a dangling
    symbolic link does. *)
Definition fs : Type := list (string * node).

Fixpoint lookup (path : string) (s : fs) : option node :=
  match s with
  | [] => None
  | (p, n) :: rest => if String.eqb p path then Some n else lookup path rest
  end.

Definition ENOENT (path : string) : exn :=
  FileNotFoundError ("[Errno 2] No such file or directory: '" ++ path ++ "'").
Definition EACCES (path : string) : exn :=
  PermissionError ("[Errno 13] Permission denied: '" ++ path ++ "'").
Definition ENOTDIR (path : string) : exn :=
  OSError ("[Errno 20] Not a directory: '" ++ path ++ "'").
Definition EISDIR (path : string) : exn :=
  OSError ("[Errno 21] Is a directory: '" ++ path ++ "'").

(** Reading in text mode: the bytes are decoded (as UTF-8, the
    preferred encoding taken here) and newlines are made universal. *)
Definition read_text (data : bytes) : result pystr :=
  match decode_utf8 data with
  | Some text => Return (universal_newlines text)
  | None => Raise (UnicodeDecodeError "'utf-8' codec can't decode byte")
  end.

Definition path_exists (path : string) (s : fs) : bool * fs :=
  (match lookup path s with Some _ => true | None => false end, s).

Definition listdir (path : string) (s : fs) : result (list string) * fs :=
  (match lookup path s with
   | None => Raise (ENOENT path)
   | Some (File _ _ _) => Raise (ENOTDIR path)
   | Some (Dir _ entries listable) =>
       if listable then Return entries else Raise (EACCES path)
   end, s).

Definition getsize (path : string) (s : fs) : result Z * fs :=
  (match lookup path s with
   | None => Raise (ENOENT path)
   | Some (File size _ _) => Return size
   | Some (Dir size _ _) => Return size
   end, s).

Definition open_and_read (path : string) (s : fs) : result pystr * fs :=
  (match lookup path s with
   | None => Raise (ENOENT path)
   | Some (Dir _ _ _) => Raise (EISDIR path)
   | Some (File _ data readable) =>
       if readable then read_text data else Raise (EACCES path)
   end, s).

Definition os : OS fs := mkOS fs path_exists listdir getsize open_and_read.

End MemFS.

(** ** Worlds used as examples *)

(** Nothing at all. *)
Definition fs_empty : MemFS.fs := [].

(** A digest directory with no text file in it. *)
Definition fs_no_txt : MemFS.fs :=
  [ ("/tmp/d1", MemFS.Dir 4096 ["notes.md"; "digest.json"] true);
    ("/tmp/d1/notes.md", MemFS.File 1 [0x61] true);
    ("/tmp/d1/digest.json", MemFS.File 2 [0x7B; 0x7D] true) ].

(** One text file, ["hi\n"]. *)
Definition fs_plain : MemFS.fs :=
  [ ("/tmp/d2", MemFS.Dir 4096 ["digest.txt"] true);
    ("/tmp/d2/digest.txt", MemFS.File 3 [0x68; 0x69; 0x0A] true) ].

(** One text file with a Windows line ending, ["a\r\nb"]. *)
Definition fs_crlf : MemFS.fs :=
  [ ("/tmp/d3", MemFS.Dir 4096 ["digest.txt"] true);
    ("/tmp/d3/digest.txt", MemFS.File 4 [0x61; 0x0D; 0x0A; 0x62] true) ].

(** One text file reported one byte over the limit. *)
Definition fs_big : MemFS.fs :=
  [ ("/tmp/d4", MemFS.Dir 4096 ["digest.txt"] true);
    ("/tmp/d4/digest.txt",
     MemFS.File (MAX_FILE_SIZE_BYTES + 1) [0x68; 0x69] true) ].

(** One text file holding blanks only, [" \n\t"]. *)
Definition fs_blank : MemFS.fs :=
  [ ("/tmp/d5", MemFS.Dir 4096 ["digest.txt"] true);
    ("/tmp/d5/digest.txt", MemFS.File 3 [0x20; 0x0A; 0x09] true) ].

(** A listed text file that is gone (or a dangling link). *)
Definition fs_vanished : MemFS.fs :=
  [ ("/tmp/d6", MemFS.Dir 4096 ["digest.txt"] true) ].

(** A text file that may not be read. *)
Definition fs_denied : MemFS.fs :=
  [ ("/tmp/d7", MemFS.Dir 4096 ["digest.txt"] true);
    ("/tmp/d7/digest.txt", MemFS.File 2 [0x68; 0x69] false) ].

(** A text file that is not UTF-8 (Latin-1 ["caf\xe9"]). *)
Definition fs_latin1 : MemFS.fs :=
  [ ("/tmp/d8", MemFS.Dir 4096 ["digest.txt"] true);
    ("/tmp/d8/digest.txt", MemFS.File 4 [0x63; 0x61; 0x66; 0xE9] true) ].




(** ** What the [except] clauses answer *)

(** The status the clauses of [download_ingest] give an exception that
    leaves the [try] body. *)
Definition handled_status (e : exn) : Z :=
  if isinstance e ExFileNotFoundError then 404
  else if isinstance e ExPermissionError then 403
  else 500.

Definition handled_detail (e : exn) : string :=
  if isinstance e ExFileNotFoundError then "Digest not found"
  else if isinstance e ExPermissionError then "Permission denied accessing digest"
  else "Internal server error".

Definition handled_log (digest_id : string) (e : exn) : log_record :=
  if isinstance e ExFileNotFoundError then
    LogRecord ERROR ("FileNotFoundError for digest_id: " ++ digest_id) None
  else if isinstance e ExPermissionError then
    LogRecord ERROR
      ("PermissionError accessing files for digest_id: " ++ digest_id) None
  else
    LogRecord ERROR
      ("Unexpected error processing digest_id: " ++ digest_id) (Some e).

Definition txt_files (entries : list string) : list string :=
  filter (fun f => endswith f ".txt") entries.

(** [sub] occurs in [s]. *)
Definition occurs_in (sub s : string) : Prop :=
  exists pre post, s = pre ++ sub ++ post.

(** Every call is made on the digest directory itself or on a name
    directly under it. *)
Definition path_under (directory : string) (ev : event) : Prop :=
  match ev_op ev with
  | OpExists | OpListdir => ev_path ev = directory
  | OpGetsize | OpOpenRead => exists name, ev_path ev = directory ++ "/" ++ name
  end.

(** The character [c] occurs in [s]. *)
Fixpoint has_char (c : ascii) (s : string) : bool :=
  match s with
  | EmptyString => false
  | String a s' => Ascii.eqb a c || has_char c s'
  end.

(* ================================================================== *)
(** * The paths through the handler                                    *)
(* ================================================================== *)

Ltac unfold_handler :=
  unfold download_ingest_body, bind, ret, raise, syscall, syscall_exn, lift,
    logger_warning, logger_error, logger_info, logger_exception, emit;
  cbn [world logs].

Ltac hstep := cbn [world logs negb fst snd].

Lemma gtb_false (n m : Z) : n <= m -> (n >? m) = false.
Proof. intros H. rewrite Z.gtb_ltb. apply Z.ltb_ge. lia. Qed.

Lemma gtb_true (n m : Z) : n > m -> (n >? m) = true.
Proof. intros H. rewrite Z.gtb_ltb. apply Z.ltb_lt. lia. Qed.

Section Paths.

Context {W : Type}.
Variable base : string.
Variable os : OS W.

Implicit Types (w : W) (l : list log_record) (digest_id name : string).

(** An exception leaving the [try] body is answered by the first clause
    that matches it. *)
Lemma download_ingest_raise digest_id m e m' :
  download_ingest_body base os digest_id m = (Raise e, m') ->
  download_ingest base os digest_id m =
    (Raise (HTTPException (handled_status e) (handled_detail e)),
     mkMachine (world m') (logs m' ++ [handled_log digest_id e])).
Proof.
  intros Hbody. unfold download_ingest, try_except. rewrite Hbody.
  unfold handled_status, handled_detail, handled_log.
  destruct e; reflexivity.
Qed.


Lemma body_no_directory digest_id w l w1 :
  os_path_exists os (base ++ "/" ++ digest_id) w = (false, w1) ->
  download_ingest_body base os digest_id (mkMachine w l) =
    (Raise (HTTPException 404 "Digest directory not found"),
     mkMachine w1
       (l ++ [LogRecord WARNING
                ("Directory not found for digest_id: " ++ digest_id) None])).
Proof.
  intros Hex. unfold_handler. now rewrite Hex.
Qed.

Lemma body_listdir_raises digest_id w l w1 e w2 :
  os_path_exists os (base ++ "/" ++ digest_id) w = (true, w1) ->
  os_listdir os (base ++ "/" ++ digest_id) w1 = (Raise e, w2) ->
  download_ingest_body base os digest_id (mkMachine w l) =
    (Raise e, mkMachine w2 l).
Proof.
  intros Hex Hls. unfold_handler. rewrite Hex. hstep. now rewrite Hls.
Qed.

Lemma body_no_txt digest_id w l w1 entries w2 :
  os_path_exists os (base ++ "/" ++ digest_id) w = (true, w1) ->
  os_listdir os (base ++ "/" ++ digest_id) w1 = (Return entries, w2) ->
  txt_files entries = [] ->
  download_ingest_body base os digest_id (mkMachine w l) =
    (Raise (HTTPException 404 "No text file found for this digest"),
     mkMachine w2
       (l ++ [LogRecord WARNING
                ("No .txt files found in directory for digest_id: "
                 ++ digest_id) None])).
Proof.
  intros Hex Hls Htxt. unfold txt_files in Htxt. unfold_handler.
  rewrite Hex. hstep. rewrite Hls. hstep. now rewrite Htxt.
Qed.

Lemma body_getsize_raises digest_id w l w1 entries w2 name rest e w3 :
  os_path_exists os (base ++ "/" ++ digest_id) w = (true, w1) ->
  os_listdir os (base ++ "/" ++ digest_id) w1 = (Return entries, w2) ->
  txt_files entries = name :: rest ->
  os_path_getsize os ((base ++ "/" ++ digest_id) ++ "/" ++ name) w2
    = (Raise e, w3) ->
  download_ingest_body base os digest_id (mkMachine w l) =
    (Raise e, mkMachine w3 l).
Proof.
  intros Hex Hls Htxt Hsz. unfold txt_files in Htxt. unfold_handler.
  rewrite Hex. hstep. rewrite Hls. hstep. rewrite Htxt. hstep. now rewrite Hsz.
Qed.

Lemma body_too_large digest_id w l w1 entries w2 name rest size w3 :
  os_path_exists os (base ++ "/" ++ digest_id) w = (true, w1) ->
  os_listdir os (base ++ "/" ++ digest_id) w1 = (Return entries, w2) ->
  txt_files entries = name :: rest ->
  os_path_getsize os ((base ++ "/" ++ digest_id) ++ "/" ++ name) w2
    = (Return size, w3) ->
  size > MAX_FILE_SIZE_BYTES ->
  download_ingest_body base os digest_id (mkMachine w l) =
    (Raise (HTTPException 413 "File too large to download"),
     mkMachine w3
       (l ++ [LogRecord ERROR
                ("File size " ++ str_of_Z size
                 ++ " exceeds limit for digest_id: " ++ digest_id) None])).
Proof.
  intros Hex Hls Htxt Hsz Hbig. unfold txt_files in Htxt. unfold_handler.
  rewrite Hex. hstep. rewrite Hls. hstep. rewrite Htxt. hstep. rewrite Hsz. hstep.
  now rewrite gtb_true by assumption.
Qed.

Lemma body_read_raises digest_id w l w1 entries w2 name rest size w3 e w4 :
  os_path_exists os (base ++ "/" ++ digest_id) w = (true, w1) ->
  os_listdir os (base ++ "/" ++ digest_id) w1 = (Return entries, w2) ->
  txt_files entries = name :: rest ->
  os_path_getsize os ((base ++ "/" ++ digest_id) ++ "/" ++ name) w2
    = (Return size, w3) ->
  size <= MAX_FILE_SIZE_BYTES ->
  open_read os ((base ++ "/" ++ digest_id) ++ "/" ++ name) w3 = (Raise e, w4) ->
  download_ingest_body base os digest_id (mkMachine w l) =
    (Raise e, mkMachine w4 l).
Proof.
  intros Hex Hls Htxt Hsz Hsmall Hrd. unfold txt_files in Htxt. unfold_handler.
  rewrite Hex. hstep. rewrite Hls. hstep. rewrite Htxt. hstep. rewrite Hsz. hstep.
  replace (size >? MAX_FILE_SIZE_BYTES) with false
    by (symmetry; now apply gtb_false).
  hstep. now rewrite Hrd.
Qed.

Lemma body_invalid digest_id w l w1 entries w2 name rest size w3 text w4 msg :
  os_path_exists os (base ++ "/" ++ digest_id) w = (true, w1) ->
  os_listdir os (base ++ "/" ++ digest_id) w1 = (Return entries, w2) ->
  txt_files entries = name :: rest ->
  os_path_getsize os ((base ++ "/" ++ digest_id) ++ "/" ++ name) w2
    = (Return size, w3) ->
  size <= MAX_FILE_SIZE_BYTES ->
  open_read os ((base ++ "/" ++ digest_id) ++ "/" ++ name) w3
    = (Return text, w4) ->
  validate_file_content text = Return (Some msg) ->
  truthy_opt (Some msg) = true ->
  download_ingest_body base os digest_id (mkMachine w l) =
    (Raise (HTTPException 422 msg),
     mkMachine w4
       (l ++ [LogRecord ERROR
                ("Content validation failed for digest_id: "
                 ++ digest_id ++ " - " ++ msg) None])).
Proof.
  intros Hex Hls Htxt Hsz Hsmall Hrd Hval Hmsg.
  unfold txt_files in Htxt. unfold_handler.
  rewrite Hex. hstep. rewrite Hls. hstep. rewrite Htxt. hstep. rewrite Hsz. hstep.
  replace (size >? MAX_FILE_SIZE_BYTES) with false
    by (symmetry; now apply gtb_false).
  hstep. rewrite Hrd. hstep. rewrite Hval. cbn [truthy_opt] in *. rewrite Hmsg.
  reflexivity.
Qed.


End Paths.

(** ** The recording wrapper, call by call *)

Section Traced.

Context {W : Type}.
Variable os : OS W.

Lemma traced_exists p w t b w1 :
  os_path_exists os p w = (b, w1) ->
  os_path_exists (traced os) p (w, t) = (b, (w1, t ++ [Ev OpExists p None])%list).
Proof. intros H. cbn [traced os_path_exists fst snd]. now rewrite H. Qed.

Lemma traced_listdir p w t r w1 :
  os_listdir os p w = (r, w1) ->
  os_listdir (traced os) p (w, t)
    = (r, (w1, t ++ [Ev OpListdir p (raised_by r)])%list).
Proof. intros H. cbn [traced os_listdir fst snd]. now rewrite H. Qed.

Lemma traced_getsize p w t r w1 :
  os_path_getsize os p w = (r, w1) ->
  os_path_getsize (traced os) p (w, t)
    = (r, (w1, t ++ [Ev OpGetsize p (raised_by r)])%list).
Proof. intros H. cbn [traced os_path_getsize fst snd]. now rewrite H. Qed.

Lemma traced_open_read p w t r w1 :
  open_read os p w = (r, w1) ->
  open_read (traced os) p (w, t)
    = (r, (w1, t ++ [Ev OpOpenRead p (raised_by r)])%list).
Proof. intros H. cbn [traced open_read fst snd]. now rewrite H. Qed.

End Traced.

(** ** The in-memory filesystem, call by call *)

Lemma memfs_exists_absent p s :
  MemFS.lookup p s = None -> os_path_exists MemFS.os p s = (false, s).
Proof. intros H. cbn [MemFS.os os_path_exists]. unfold MemFS.path_exists. now rewrite H. Qed.

Lemma memfs_exists_present p s n :
  MemFS.lookup p s = Some n -> os_path_exists MemFS.os p s = (true, s).
Proof. intros H. cbn [MemFS.os os_path_exists]. unfold MemFS.path_exists. now rewrite H. Qed.

Lemma memfs_listdir p s size entries :
  MemFS.lookup p s = Some (MemFS.Dir size entries true) ->
  os_listdir MemFS.os p s = (Return entries, s).
Proof. intros H. cbn [MemFS.os os_listdir]. unfold MemFS.listdir. now rewrite H. Qed.

Lemma memfs_getsize_file p s size data readable :
  MemFS.lookup p s = Some (MemFS.File size data readable) ->
  os_path_getsize MemFS.os p s = (Return size, s).
Proof. intros H. cbn [MemFS.os os_path_getsize]. unfold MemFS.getsize. now rewrite H. Qed.

Lemma memfs_open_read p s size data :
  MemFS.lookup p s = Some (MemFS.File size data true) ->
  open_read MemFS.os p s = (MemFS.read_text data, s).
Proof. intros H. cbn [MemFS.os open_read]. unfold MemFS.open_and_read. now rewrite H. Qed.

Lemma memfs_read_only : read_only MemFS.os.
Proof. repeat split; intros; reflexivity. Qed.

(* ================================================================== *)
(** * UTF-8 and universal newlines                                     *)
(* ================================================================== *)

(** Case analysis on every integer comparison of the goal. *)
Ltac split_tests :=
  repeat (match goal with
          | |- context [?a <=? ?b] => destruct (Z.leb_spec a b)
          | |- context [?a <? ?b] => destruct (Z.ltb_spec a b)
          | |- context [?a =? ?b] => destruct (Z.eqb_spec a b)
          end; cbn [andb orb negb]; try lia; try discriminate).

Lemma div_mod_64 (h l : Z) :
  0 <= l < 64 -> (h * 64 + l) / 64 = h /\ (h * 64 + l) mod 64 = l.
Proof. intros H. split; Z.div_mod_to_equations; lia. Qed.

Lemma div_mod_4096 (h m l : Z) :
  0 <= m < 64 -> 0 <= l < 64 ->
  (h * 4096 + m * 64 + l) / 4096 = h /\
  ((h * 4096 + m * 64 + l) / 64) mod 64 = m /\
  (h * 4096 + m * 64 + l) mod 64 = l.
Proof. intros Hm Hl. repeat split; Z.div_mod_to_equations; lia. Qed.

Lemma div_mod_262144 (h m1 m2 l : Z) :
  0 <= m1 < 64 -> 0 <= m2 < 64 -> 0 <= l < 64 ->
  (h * 262144 + m1 * 4096 + m2 * 64 + l) / 262144 = h /\
  ((h * 262144 + m1 * 4096 + m2 * 64 + l) / 4096) mod 64 = m1 /\
  ((h * 262144 + m1 * 4096 + m2 * 64 + l) / 64) mod 64 = m2 /\
  (h * 262144 + m1 * 4096 + m2 * 64 + l) mod 64 = l.
Proof. intros H1 H2 Hl. repeat split; Z.div_mod_to_equations; lia. Qed.

Ltac finish_step :=
  split; [reflexivity|]; split; [cbn [app]; repeat f_equal; lia | discriminate].

Ltac encode_decoded :=
  lazymatch goal with
  | |- context [encode_char (?h * 262144 + ?m1 * 4096 + ?m2 * 64 + ?l)] =>
      let Hd := fresh in let H1 := fresh in let H2 := fresh in let H3 := fresh in
      destruct (div_mod_262144 h m1 m2 l) as (Hd & H1 & H2 & H3); try lia;
      unfold encode_char; rewrite Hd, H1, H2, H3
  | |- context [encode_char (?h * 4096 + ?m * 64 + ?l)] =>
      let Hd := fresh in let H1 := fresh in let H2 := fresh in
      destruct (div_mod_4096 h m l) as (Hd & H1 & H2); try lia;
      unfold encode_char; rewrite Hd, H1, H2
  | |- context [encode_char (?h * 64 + ?l)] =>
      let Hd := fresh in let H1 := fresh in
      destruct (div_mod_64 h l) as (Hd & H1); try lia;
      unfold encode_char; rewrite Hd, H1
  | |- _ => unfold encode_char
  end.

Lemma decode_one_encode bs c rest :
  decode_one bs = Some (c, rest) ->
  exists b, encode_char c = Some b /\ bs = (b ++ rest)%list /\ b <> [].
Proof.
  unfold decode_one, is_cont.
  destruct bs as [|b0 [|b1 [|b2 [|b3 t3]]]]; try discriminate;
    split_tests; intros [= <- <-]; eexists; encode_decoded; split_tests;
    finish_step.
Qed.

Lemma decode_loop_encode fuel : forall bs t,
  decode_loop fuel bs = Some t -> encode_utf8 t = Some bs.
Proof.
  induction fuel as [|fuel IH]; intros [|b0 t0] t; cbn [decode_loop];
    try discriminate; try (intros [= <-]; reflexivity).
  destruct (decode_one (b0 :: t0)) as [[c rest]|] eqn:Hone; [|discriminate].
  destruct (decode_loop fuel rest) as [s|] eqn:Hloop; [|discriminate].
  intros [= <-].
  destruct (decode_one_encode _ _ _ Hone) as (b & Hc & Hbs & _).
  cbn [encode_utf8]. rewrite Hc, (IH _ _ Hloop), Hbs. reflexivity.
Qed.

Lemma decode_encode bs t : decode_utf8 bs = Some t -> encode_utf8 t = Some bs.
Proof. apply decode_loop_encode. Qed.

Lemma Some_inj {A} (a b : A) : Some a = Some b -> a = b.
Proof. congruence. Qed.

Lemma encode_char_bytes c b :
  encode_char c = Some b ->
  (c = 13 -> b = [13]) /\ (c = 10 -> b = [10]) /\
  (c <> 13 -> Forall (fun x => x <> 13) b) /\
  (c <> 10 -> exists x b', b = x :: b' /\ x <> 10).
Proof.
  unfold encode_char. split_tests; intros Hb; apply Some_inj in Hb; subst b;
    repeat split; intros Hc;
    try lia; try (subst c; reflexivity);
    try (repeat (apply Forall_cons; [Z.div_mod_to_equations; lia|]);
         apply Forall_nil);
    try (eexists; eexists; split; [reflexivity|]; Z.div_mod_to_equations; lia).
Qed.

Lemma universal_newlines_app_no_cr b bs :
  Forall (fun x => x <> 13) b ->
  universal_newlines (b ++ bs)%list = (b ++ universal_newlines bs)%list.
Proof.
  induction 1 as [|x b Hx Hb IH]; [reflexivity|].
  cbn [app universal_newlines]. destruct (Z.eqb_spec x 13); [contradiction|].
  now rewrite IH.
Qed.

Lemma universal_newlines_cons x l :
  x <> 13 -> universal_newlines (x :: l) = x :: universal_newlines l.
Proof.
  intros Hx. cbn [universal_newlines]. now destruct (Z.eqb_spec x 13).
Qed.

Lemma universal_newlines_cr_lf l :
  universal_newlines (13 :: 10 :: l) = 10 :: universal_newlines l.
Proof. reflexivity. Qed.

Lemma universal_newlines_cr x l :
  x <> 10 -> universal_newlines (13 :: x :: l) = 10 :: universal_newlines (x :: l).
Proof.
  intros Hx. cbn [universal_newlines]. cbn [Z.eqb Pos.eqb].
  now destruct (Z.eqb_spec x 10).
Qed.

Lemma encode_universal_newlines_le n : forall t data,
  (List.length t <= n)%nat ->
  encode_utf8 t = Some data ->
  encode_utf8 (universal_newlines t) = Some (universal_newlines data).
Proof.
  induction n as [|n IH]; intros [|c t'] data Hn; cbn [List.length] in Hn;
    try lia; try (intros [= <-]; reflexivity).
  cbn [encode_utf8].
  destruct (encode_char c) as [b|] eqn:Hc; [|discriminate].
  destruct (encode_utf8 t') as [bs|] eqn:Ht'; [|discriminate].
  intros [= <-].
  destruct (encode_char_bytes _ _ Hc) as (Hcr & _ & Hno & _).
  destruct (Z.eq_dec c 13) as [->|Hc13].
  - rewrite (Hcr eq_refl). destruct t' as [|c' t''].
    + injection Ht' as <-. reflexivity.
    + cbn [encode_utf8] in Ht'.
      destruct (encode_char c') as [b'|] eqn:Hc'; [|discriminate].
      destruct (encode_utf8 t'') as [bs''|] eqn:Ht''; [|discriminate].
      injection Ht' as <-.
      destruct (encode_char_bytes _ _ Hc') as (_ & Hlf & _ & Hnlf).
      destruct (Z.eq_dec c' 10) as [->|Hc10].
      * rewrite (Hlf eq_refl). cbn [app]. rewrite !universal_newlines_cr_lf.
        cbn [encode_utf8]. change (encode_char 10) with (Some [10]).
        rewrite (IH t'' bs'');
          [reflexivity | cbn [List.length] in Hn; lia | assumption].
      * destruct (Hnlf Hc10) as (x & b'' & -> & Hx).
        cbn [app]. rewrite !universal_newlines_cr by assumption.
        cbn [encode_utf8]. change (encode_char 10) with (Some [10]).
        rewrite (IH (c' :: t'') ((x :: b'') ++ bs'')%list).
        -- reflexivity.
        -- cbn [List.length] in *. lia.
        -- cbn [encode_utf8]. now rewrite Hc', Ht''.
  - rewrite universal_newlines_cons by assumption.
    rewrite universal_newlines_app_no_cr by auto.
    cbn [encode_utf8]. rewrite Hc.
    rewrite (IH t' bs); [reflexivity | lia | assumption].
Qed.

Lemma encode_universal_newlines t data :
  encode_utf8 t = Some data ->
  encode_utf8 (universal_newlines t) = Some (universal_newlines data).
Proof. apply (encode_universal_newlines_le (List.length t)). lia. Qed.

Lemma universal_newlines_length_le n : forall l : list Z,
  (List.length l <= n)%nat ->
  (List.length (universal_newlines l) <= List.length l)%nat.
Proof.
  induction n as [|n IH]; intros [|x l] Hn; cbn [List.length] in *;
    try lia; try (cbn; lia).
  cbn [universal_newlines]. destruct (x =? 13).
  - destruct l as [|y l']; cbn [List.length]; [lia|].
    destruct (y =? 10); cbn [List.length].
    + specialize (IH l'). cbn [List.length] in *. lia.
    + specialize (IH (y :: l')). cbn [List.length] in *. lia.
  - cbn [List.length]. specialize (IH l). lia.
Qed.

Lemma universal_newlines_len (l : list Z) : len (universal_newlines l) <= len l.
Proof.
  unfold len. pose proof (universal_newlines_length_le (List.length l) l). lia.
Qed.


(* ================================================================== *)
(** * Content validation                                               *)
(* ================================================================== *)

Lemma lstrip_nil s : lstrip s = [] <-> forallb isspace s = true.
Proof.
  induction s as [|c s IH]; cbn [lstrip forallb]; [tauto|].
  destruct (isspace c); cbn [andb]; [exact IH|]. split; discriminate.
Qed.

Lemma lstrip_head s c r : lstrip s = c :: r -> isspace c = false.
Proof.
  induction s as [|a s IH]; cbn [lstrip]; [discriminate|].
  destruct (isspace a) eqn:Ha; [exact IH|]. now intros [= <- <-].
Qed.

Lemma forallb_rev {A} (f : A -> bool) (l : list A) :
  forallb f (rev l) = true -> forallb f l = true.
Proof.
  rewrite !forallb_forall. intros H x Hx. apply H. now apply in_rev in Hx.
Qed.

Lemma rev_nil {A} (l : list A) : rev l = [] -> l = [].
Proof.
  intros H. apply (f_equal (@rev A)) in H. now rewrite rev_involutive in H.
Qed.

(** [not content.strip()] holds exactly of the empty string and of the
    strings made of whitespace only. *)
Lemma strip_blank s : truthy (strip s) = false <-> forallb isspace s = true.
Proof.
  assert (Ht : forall l : pystr, truthy l = false <-> l = []).
  { intros [|x l]; cbn; split; congruence. }
  rewrite Ht. unfold strip, rstrip. split.
  - intros H. apply rev_nil, lstrip_nil, forallb_rev in H.
    destruct (lstrip s) as [|c r] eqn:Hl; [now apply lstrip_nil|].
    apply lstrip_head in Hl. cbn [forallb] in H. rewrite Hl in H. discriminate.
  - intros H. apply lstrip_nil in H. rewrite H. reflexivity.
Qed.

Lemma strip_not_blank s : truthy (strip s) = true <-> forallb isspace s = false.
Proof.
  pose proof (strip_blank s) as H.
  destruct (truthy (strip s)), (forallb isspace s); intuition congruence.
Qed.

Lemma has_char_app c a b : has_char c (a ++ b) = has_char c a || has_char c b.
Proof.
  induction a as [|x a IH]; cbn [String.append has_char]; [reflexivity|].
  now rewrite IH, orb_assoc.
Qed.

(** A string in which [c] does not occur holds no string in which [c]
    occurs. *)
Lemma has_char_occurs c sub s :
  has_char c s = false -> has_char c sub = true -> ~ occurs_in sub s.
Proof.
  intros Hs Hsub (pre & post & ->).
  rewrite !has_char_app, Hsub, orb_true_r in Hs. cbn in Hs. discriminate.
Qed.



Lemma validate_blank text :
  truthy (strip text) = false ->
  validate_file_content text = Return (Some "File is empty").
Proof. intros H. unfold validate_file_content. now rewrite H. Qed.

Lemma validate_oversized text encoded :
  truthy (strip text) = true ->
  encode_utf8 text = Some encoded ->
  len encoded > MAX_FILE_SIZE_BYTES ->
  validate_file_content text
    = Return (Some "File size exceeds maximum limit of 50MB").
Proof.
  intros Hs He Hl. unfold validate_file_content.
  rewrite Hs, He. cbn [negb]. now rewrite gtb_true.
Qed.

Lemma validate_ok text encoded :
  truthy (strip text) = true ->
  encode_utf8 text = Some encoded ->
  len encoded <= MAX_FILE_SIZE_BYTES ->
  validate_file_content text = Return None.
Proof.
  intros Hs He Hl. unfold validate_file_content.
  rewrite Hs, He. cbn [negb]. now rewrite gtb_false.
Qed.

(** What a text-mode read of UTF-8 bytes encodes back to: the bytes
    themselves, newlines made universal. *)
Lemma read_text_encode data text :
  MemFS.read_text data = Return text ->
  encode_utf8 text = Some (universal_newlines data).
Proof.
  unfold MemFS.read_text.
  destruct (decode_utf8 data) as [t|] eqn:Hd; [|discriminate].
  intros [= <-]. now apply encode_universal_newlines, decode_encode.
Qed.


(* ================================================================== *)
(** * Every run of the handler                                         *)
(* ================================================================== *)

(** The handler makes at most four calls, so a run is settled by the
    answers to them: [run_handler os] follows the handler through every
    answer [os] may give. *)
Ltac hsimpl :=
  unfold calls, serve, download_ingest, download_ingest_body, try_except,
    bind, ret, raise, syscall, syscall_exn, lift,
    logger_info, logger_warning, logger_error, logger_exception, emit;
  cbn [dispatch isinstance world logs fst snd negb raised_by app
       traced os_path_exists os_listdir os_path_getsize open_read
       http_status http_detail].

Ltac next_call os :=
  match goal with
  | |- context [os_path_exists os ?p ?w] =>
      let b := fresh "found" in
      destruct (os_path_exists os p w) as [b ?] eqn:?; destruct b
  | |- context [os_listdir os ?p ?w] =>
      destruct (os_listdir os p w) as [[?|?] ?] eqn:?
  | |- context [filter ?f ?l] =>
      destruct (filter f l) as [|? ?] eqn:?
  | |- context [os_path_getsize os ?p ?w] =>
      destruct (os_path_getsize os p w) as [[?|?] ?] eqn:?
  | |- context [?n >? MAX_FILE_SIZE_BYTES] =>
      destruct (n >? MAX_FILE_SIZE_BYTES) eqn:?
  | |- context [open_read os ?p ?w] =>
      destruct (open_read os p w) as [[?|?] ?] eqn:?
  | |- context [validate_file_content ?t] =>
      destruct (validate_file_content t) as [[?|]|?] eqn:?
  | |- context [truthy_opt ?o] =>
      destruct (truthy_opt o) eqn:?
  | |- context [encode_utf8 ?t] =>
      destruct (encode_utf8 t) as [?|] eqn:?
  | |- context [match ?e with FileNotFoundError _ => _ | _ => _ end] =>
      destruct e
  end.

Ltac run_handler os := hsimpl; repeat (next_call os; hsimpl).

Section Runs.
Context {W : Type} (base : string) (os : OS W).

Lemma traced_faithful digest_id w t l :
  let r := download_ingest base (traced os) digest_id (mkMachine (w, t) l) in
  let r' := download_ingest base os digest_id (mkMachine w l) in
  fst r = fst r' /\ fst (world (snd r)) = world (snd r')
  /\ logs (snd r) = logs (snd r').
Proof.
  unfold download_ingest, download_ingest_body.
  run_handler os.
  all: repeat split.
Qed.

Ltac pick_event :=
  let Hin := fresh "Hin" in
  intros Hin; cbn [In] in Hin;
  repeat (destruct Hin as [<-|Hin]); try contradiction;
  cbn [ev_raised ev_op ev_path raised_by].

Lemma raised_call_leaves_body digest_id w ev e :
  In ev (calls base os digest_id w) -> ev_raised ev = Some e ->
  fst (download_ingest_body base os digest_id (mkMachine w [])) = Raise e.
Proof.
  run_handler os; pick_event; intros Hr; try discriminate;
    apply Some_inj in Hr; now subst.
Qed.

Lemma calls_under_directory digest_id w :
  Forall (path_under (base ++ "/" ++ digest_id)) (calls base os digest_id w).
Proof.
  run_handler os;
    repeat (apply Forall_cons; [unfold path_under; cbn [ev_op ev_path]; eauto|]);
    apply Forall_nil.
Qed.

Lemma first_call digest_id w :
  hd_error (calls base os digest_id w)
    = Some (Ev OpExists (base ++ "/" ++ digest_id) None).
Proof. run_handler os; reflexivity. Qed.

Lemma serve_world_unchanged digest_id w :
  read_only os -> world (snd (serve base os digest_id w)) = w.
Proof.
  intros (Hex & Hls & Hsz & Hrd).
  run_handler os;
    repeat match goal with
      | H : os_path_exists os ?p ?w0 = _ |- _ =>
          let E := fresh in pose proof (Hex p w0) as E; rewrite H in E;
          cbn [snd] in E; subst; clear H
      | H : os_listdir os ?p ?w0 = _ |- _ =>
          let E := fresh in pose proof (Hls p w0) as E; rewrite H in E;
          cbn [snd] in E; subst; clear H
      | H : os_path_getsize os ?p ?w0 = _ |- _ =>
          let E := fresh in pose proof (Hsz p w0) as E; rewrite H in E;
          cbn [snd] in E; subst; clear H
      | H : open_read os ?p ?w0 = _ |- _ =>
          let E := fresh in pose proof (Hrd p w0) as E; rewrite H in E;
          cbn [snd] in E; subst; clear H
      end; reflexivity.
Qed.
(** Whatever the answers, a request ends in a response with status 200
    or in an [HTTPException] with status 403, 404 or 500. *)
Lemma serve_outcomes digest_id w :
  match fst (serve base os digest_id w) with
  | Return resp => status_code resp = 200
  | Raise (HTTPException status _) => status = 403 \/ status = 404 \/ status = 500
  | Raise _ => False
  end.
Proof. run_handler os; auto. Qed.

End Runs.

(** An identifier that climbs out of the base directory is used as it
    is. *)
Example calls_with_dot_dot :
  calls "/tmp" MemFS.os "../etc" fs_plain
    = [Ev OpExists "/tmp/../etc" None].
Proof. reflexivity. Qed.

(** The in-memory filesystem is the same after any request. *)
Lemma memfs_unchanged base digest_id s :
  world (snd (serve base MemFS.os digest_id s)) = s.
Proof. apply serve_world_unchanged, memfs_read_only. Qed.

(* ================================================================== *)
(** * Missing digests                                                  *)
(* ================================================================== *)

(** C1.  For an identifier whose directory does not exist, and for one
    whose directory lists no name ending in [.txt], the [try] body raises
    [HTTPException] with status 404; being an [Exception], it is caught
    by the last [except] clause, and the status the client receives is
    500. *)
Theorem C1_missing_digest_answers_500 (base digest_id : string) (s : MemFS.fs) :
  MemFS.lookup (base ++ "/" ++ digest_id) s = None \/
  (exists size entries,
     MemFS.lookup (base ++ "/" ++ digest_id) s
       = Some (MemFS.Dir size entries true)
     /\ txt_files entries = []) ->
  (exists detail,
     fst (download_ingest_body base MemFS.os digest_id (mkMachine s []))
       = Raise (HTTPException 404 detail))
  /\ http_status (fst (serve base MemFS.os digest_id s)) = 500
  /\ http_status (fst (serve base MemFS.os digest_id s)) <> 404.
Proof.
  intros [Habsent | (size & entries & Hdir & Htxt)].
  - pose proof (body_no_directory base MemFS.os digest_id s [] s
                  (memfs_exists_absent _ _ Habsent)) as Hbody.
    unfold serve. rewrite (download_ingest_raise _ _ _ _ _ _ Hbody), Hbody.
    cbn. repeat split; [eauto | discriminate].
  - pose proof (body_no_txt base MemFS.os digest_id s [] s entries s
                  (memfs_exists_present _ _ _ Hdir)
                  (memfs_listdir _ _ _ _ Hdir) Htxt) as Hbody.
    unfold serve. rewrite (download_ingest_raise _ _ _ _ _ _ Hbody), Hbody.
    cbn. repeat split; [eauto | discriminate].
Qed.

(** The theorem at an empty filesystem, and at a directory holding no
    text file. *)
Lemma C1_missing_digest_witness :
  ((exists detail,
      fst (download_ingest_body "/tmp" MemFS.os "abc" (mkMachine fs_empty []))
        = Raise (HTTPException 404 detail))
   /\ http_status (fst (serve "/tmp" MemFS.os "abc" fs_empty)) = 500
   /\ http_status (fst (serve "/tmp" MemFS.os "abc" fs_empty)) <> 404)
  /\ ((exists detail,
         fst (download_ingest_body "/tmp" MemFS.os "d1" (mkMachine fs_no_txt []))
           = Raise (HTTPException 404 detail))
      /\ http_status (fst (serve "/tmp" MemFS.os "d1" fs_no_txt)) = 500
      /\ http_status (fst (serve "/tmp" MemFS.os "d1" fs_no_txt)) <> 404).
Proof.
  split.
  - apply (C1_missing_digest_answers_500 "/tmp" "abc" fs_empty).
    left. reflexivity.
  - apply (C1_missing_digest_answers_500 "/tmp" "d1" fs_no_txt).
    right. exists 4096, ["notes.md"; "digest.json"]. split; reflexivity.
Defined.

(* ================================================================== *)
(** * The successful download                                          *)
(* ================================================================== *)




(* ================================================================== *)
(** * Failures, effects and bounds                                     *)
(* ================================================================== *)

Section Claims.
Context {W : Type} (base : string) (os : OS W).

(** C3.  When the first [.txt] entry is reported larger than 50 MiB, the
    [try] body raises [HTTPException] with status 413, which the last
    [except] clause turns into 500; the calls of the run are the
    existence test, the listing and the size query, and the file is
    never opened or read. *)
Theorem C3_oversized_file_answers_500_unread
    (digest_id : string) (w w1 w2 w3 : W)
    (entries : list string) (name : string) (rest : list string) (size : Z) :
  os_path_exists os (base ++ "/" ++ digest_id) w = (true, w1) ->
  os_listdir os (base ++ "/" ++ digest_id) w1 = (Return entries, w2) ->
  txt_files entries = name :: rest ->
  os_path_getsize os ((base ++ "/" ++ digest_id) ++ "/" ++ name) w2
    = (Return size, w3) ->
  size > MAX_FILE_SIZE_BYTES ->
  fst (download_ingest_body base os digest_id (mkMachine w []))
    = Raise (HTTPException 413 "File too large to download")
  /\ http_status (fst (serve base os digest_id w)) = 500
  /\ http_status (fst (serve base os digest_id w)) <> 413
  /\ calls base os digest_id w
     = [ Ev OpExists (base ++ "/" ++ digest_id) None;
         Ev OpListdir (base ++ "/" ++ digest_id) None;
         Ev OpGetsize ((base ++ "/" ++ digest_id) ++ "/" ++ name) None ]
  /\ existsb is_read (calls base os digest_id w) = false.
Proof.
  intros Hex Hls Htxt Hsz Hbig.
  pose proof (body_too_large base os digest_id w [] w1 entries w2 name rest
                size w3 Hex Hls Htxt Hsz Hbig) as Hbody.
  pose proof (body_too_large base (traced os) digest_id (w, []) [] _ entries _
                name rest size _
                (traced_exists os _ _ _ _ _ Hex)
                (traced_listdir os _ _ _ _ _ Hls) Htxt
                (traced_getsize os _ _ _ _ _ Hsz) Hbig) as Htraced.
  unfold calls, serve.
  rewrite (download_ingest_raise _ _ _ _ _ _ Hbody), Hbody.
  rewrite (download_ingest_raise _ _ _ _ _ _ Htraced).
  cbn [fst snd world http_status handled_status isinstance raised_by app].
  repeat split. discriminate.
Qed.

(** C4.  When the file passes the size test before the read and its text
    is empty, is whitespace only, or encodes to more than 50 MiB of
    UTF-8 (the same [MAX_FILE_SIZE_BYTES] as before the read), the [try]
    body raises [HTTPException] with status 422, which the last [except]
    clause turns into 500. *)
Theorem C4_invalid_content_answers_500
    (digest_id : string) (w w1 w2 w3 w4 : W)
    (entries : list string) (name : string) (rest : list string) (size : Z)
    (text : pystr) :
  os_path_exists os (base ++ "/" ++ digest_id) w = (true, w1) ->
  os_listdir os (base ++ "/" ++ digest_id) w1 = (Return entries, w2) ->
  txt_files entries = name :: rest ->
  os_path_getsize os ((base ++ "/" ++ digest_id) ++ "/" ++ name) w2
    = (Return size, w3) ->
  size <= MAX_FILE_SIZE_BYTES ->
  open_read os ((base ++ "/" ++ digest_id) ++ "/" ++ name) w3
    = (Return text, w4) ->
  forallb isspace text = true
  \/ (exists encoded,
        encode_utf8 text = Some encoded /\ len encoded > MAX_FILE_SIZE_BYTES) ->
  (exists detail,
     fst (download_ingest_body base os digest_id (mkMachine w []))
       = Raise (HTTPException 422 detail))
  /\ http_status (fst (serve base os digest_id w)) = 500
  /\ http_status (fst (serve base os digest_id w)) <> 422.
Proof.
  intros Hex Hls Htxt Hsz Hsmall Hrd Hbad.
  assert (exists msg, validate_file_content text = Return (Some msg)
                      /\ truthy_opt (Some msg) = true) as (msg & Hval & Hmsg).
  { destruct Hbad as [Hblank | (encoded & Henc & Hlen)].
    - eexists. split; [apply validate_blank, strip_blank, Hblank | reflexivity].
    - destruct (truthy (strip text)) eqn:Hs.
      + eexists. split; [exact (validate_oversized _ _ Hs Henc Hlen)|reflexivity].
      + eexists. split; [exact (validate_blank _ Hs) | reflexivity]. }
  pose proof (body_invalid base os digest_id w [] w1 entries w2 name rest
                size w3 text w4 msg Hex Hls Htxt Hsz Hsmall Hrd Hval Hmsg)
    as Hbody.
  unfold serve. rewrite (download_ingest_raise _ _ _ _ _ _ Hbody), Hbody.
  cbn [fst http_status handled_status isinstance].
  split; [eauto|]. split; [reflexivity | discriminate].
Qed.

(** C5.  In every run in which a filesystem call raises
    [FileNotFoundError] the status is 404, and in every run in which one
    raises [PermissionError] the status is 403; in neither is it 500.
    ([os.path.exists] raises nothing; the calls that may are the
    listing, the size query and the read.) *)
Theorem C5_not_found_and_denied_are_404_and_403
    (digest_id : string) (w : W) (ev : event) (e : exn) :
  In ev (calls base os digest_id w) ->
  ev_raised ev = Some e ->
  (isinstance e ExFileNotFoundError = true ->
     http_status (fst (serve base os digest_id w)) = 404
     /\ http_status (fst (serve base os digest_id w)) <> 500)
  /\ (isinstance e ExPermissionError = true ->
        http_status (fst (serve base os digest_id w)) = 403
        /\ http_status (fst (serve base os digest_id w)) <> 500).
Proof.
  intros Hin Hraised.
  pose proof (raised_call_leaves_body base os digest_id w ev e Hin Hraised)
    as Hbody.
  destruct (download_ingest_body base os digest_id (mkMachine w []))
    as [r m'] eqn:Hrun. cbn [fst] in Hbody. subst r.
  unfold serve. rewrite (download_ingest_raise _ _ _ _ _ _ Hrun).
  cbn [fst http_status]. unfold handled_status.
  split; intros Hcls.
  - rewrite Hcls. split; [reflexivity | discriminate].
  - destruct e; try discriminate Hcls. cbn. split; [reflexivity | discriminate].
Qed.

(** C6.  Whenever the [try] body raises an exception that is neither a
    [FileNotFoundError] nor a [PermissionError], the handler raises
    [HTTPException] with status 500 and the detail
    ["Internal server error"], whatever the exception and its text: no
    string holding a path separator occurs in that detail, and the
    exception itself goes to the log only. *)
Theorem C6_unexpected_exception_is_a_generic_500
    (digest_id : string) (m m' : machine W) (e : exn) :
  download_ingest_body base os digest_id m = (Raise e, m') ->
  isinstance e ExFileNotFoundError = false ->
  isinstance e ExPermissionError = false ->
  fst (download_ingest base os digest_id m)
    = Raise (HTTPException 500 "Internal server error")
  /\ http_status (fst (download_ingest base os digest_id m)) = 500
  /\ http_detail (fst (download_ingest base os digest_id m))
     = Some "Internal server error"
  /\ (forall path, has_char "/" path = true ->
        ~ occurs_in path "Internal server error")
  /\ logs (snd (download_ingest base os digest_id m))
     = (logs m' ++ [LogRecord ERROR
                      ("Unexpected error processing digest_id: " ++ digest_id)
                      (Some e)])%list.
Proof.
  intros Hbody Hfnf Hperm.
  rewrite (download_ingest_raise _ _ _ _ _ _ Hbody).
  unfold handled_status, handled_detail, handled_log. rewrite Hfnf, Hperm.
  cbn [fst snd logs http_status http_detail].
  repeat split. intros path Hpath.
  apply (has_char_occurs "/"); [reflexivity | exact Hpath].
Qed.

(** C7.  Over an operating system whose calls leave the world as it
    was, a second request for the same identifier, made in the world the
    first one left, has the same outcome as the first: the same response
    (status, content, headers) or the same error, and the same log. *)
Theorem C7_repeated_requests_answer_alike (digest_id : string) (w : W) :
  read_only os ->
  serve base os digest_id (world (snd (serve base os digest_id w)))
    = serve base os digest_id w.
Proof.
  intros Hro. now rewrite (serve_world_unchanged base os digest_id w Hro).
Qed.

(** C8.  The handler makes no call but the four of [OS]; when these
    leave the world as it was (no file or directory made, changed or
    removed), so does a request, whether it succeeds or fails. *)
Theorem C8_filesystem_left_unchanged (digest_id : string) (w : W) :
  read_only os ->
  world (snd (serve base os digest_id w)) = w.
Proof. apply serve_world_unchanged. Qed.

(** C9.  For every identifier, whatever characters it holds, the first
    call of a request is the existence test of
    [TMP_BASE_PATH ++ "/" ++ digest_id], taken as it is; the listing is
    made on the same path, and the size query and the read on a name
    directly under it. *)
Theorem C9_directory_is_base_slash_identifier (digest_id : string) (w : W) :
  hd_error (calls base os digest_id w)
    = Some (Ev OpExists (base ++ "/" ++ digest_id) None)
  /\ Forall (path_under (base ++ "/" ++ digest_id)) (calls base os digest_id w).
Proof.
  split; [apply first_call | apply calls_under_directory].
Qed.


End Claims.

(** ** The theorems at the example worlds *)

(** C3 at a file reported one byte over the limit. *)
Lemma C3_oversized_file_witness :
  fst (download_ingest_body "/tmp" MemFS.os "d4" (mkMachine fs_big []))
    = Raise (HTTPException 413 "File too large to download")
  /\ http_status (fst (serve "/tmp" MemFS.os "d4" fs_big)) = 500
  /\ http_status (fst (serve "/tmp" MemFS.os "d4" fs_big)) <> 413
  /\ calls "/tmp" MemFS.os "d4" fs_big
     = [ Ev OpExists ("/tmp" ++ "/" ++ "d4") None;
         Ev OpListdir ("/tmp" ++ "/" ++ "d4") None;
         Ev OpGetsize (("/tmp" ++ "/" ++ "d4") ++ "/" ++ "digest.txt") None ]
  /\ existsb is_read (calls "/tmp" MemFS.os "d4" fs_big) = false.
Proof.
  apply (C3_oversized_file_answers_500_unread "/tmp" MemFS.os "d4"
           fs_big fs_big fs_big fs_big ["digest.txt"] "digest.txt" []
           (MAX_FILE_SIZE_BYTES + 1)).
  - reflexivity.
  - reflexivity.
  - reflexivity.
  - reflexivity.
  - lia.
Defined.

(** C4 at a file of blanks. *)
Lemma C4_invalid_content_witness :
  (exists detail,
     fst (download_ingest_body "/tmp" MemFS.os "d5" (mkMachine fs_blank []))
       = Raise (HTTPException 422 detail))
  /\ http_status (fst (serve "/tmp" MemFS.os "d5" fs_blank)) = 500
  /\ http_status (fst (serve "/tmp" MemFS.os "d5" fs_blank)) <> 422.
Proof.
  apply (C4_invalid_content_answers_500 "/tmp" MemFS.os "d5"
           fs_blank fs_blank fs_blank fs_blank fs_blank
           ["digest.txt"] "digest.txt" [] 3 [0x20; 0x0A; 0x09]).
  - reflexivity.
  - reflexivity.
  - reflexivity.
  - reflexivity.
  - vm_compute; discriminate.
  - reflexivity.
  - left. reflexivity.
Defined.

(** C5 at a listed file that is gone, and at a file that may not be
    read. *)
Lemma C5_not_found_and_denied_witness :
  (http_status (fst (serve "/tmp" MemFS.os "d6" fs_vanished)) = 404
   /\ http_status (fst (serve "/tmp" MemFS.os "d6" fs_vanished)) <> 500)
  /\ (http_status (fst (serve "/tmp" MemFS.os "d7" fs_denied)) = 403
      /\ http_status (fst (serve "/tmp" MemFS.os "d7" fs_denied)) <> 500).
Proof.
  split.
  - apply (proj1 (C5_not_found_and_denied_are_404_and_403
                    "/tmp" MemFS.os "d6" fs_vanished
                    (Ev OpGetsize "/tmp/d6/digest.txt"
                       (Some (MemFS.ENOENT "/tmp/d6/digest.txt")))
                    (MemFS.ENOENT "/tmp/d6/digest.txt")
                    (or_intror (or_intror (or_introl eq_refl))) eq_refl)).
    reflexivity.
  - apply (proj2 (C5_not_found_and_denied_are_404_and_403
                    "/tmp" MemFS.os "d7" fs_denied
                    (Ev OpOpenRead "/tmp/d7/digest.txt"
                       (Some (MemFS.EACCES "/tmp/d7/digest.txt")))
                    (MemFS.EACCES "/tmp/d7/digest.txt")
                    (or_intror (or_intror (or_intror (or_introl eq_refl))))
                    eq_refl)).
    reflexivity.
Defined.

(** C6 at a file that is not UTF-8. *)
Lemma C6_unexpected_exception_witness :
  fst (download_ingest "/tmp" MemFS.os "d8" (mkMachine fs_latin1 []))
    = Raise (HTTPException 500 "Internal server error")
  /\ http_status (fst (download_ingest "/tmp" MemFS.os "d8"
                         (mkMachine fs_latin1 []))) = 500
  /\ http_detail (fst (download_ingest "/tmp" MemFS.os "d8"
                         (mkMachine fs_latin1 [])))
     = Some "Internal server error"
  /\ (forall path, has_char "/" path = true ->
        ~ occurs_in path "Internal server error")
  /\ logs (snd (download_ingest "/tmp" MemFS.os "d8" (mkMachine fs_latin1 [])))
     = (logs (mkMachine fs_latin1 [])
        ++ [LogRecord ERROR
              ("Unexpected error processing digest_id: " ++ "d8")
              (Some (UnicodeDecodeError "'utf-8' codec can't decode byte"))])%list.
Proof.
  apply (C6_unexpected_exception_is_a_generic_500 "/tmp" MemFS.os "d8"
           (mkMachine fs_latin1 []) (mkMachine fs_latin1 [])
           (UnicodeDecodeError "'utf-8' codec can't decode byte")).
  - reflexivity.
  - reflexivity.
  - reflexivity.
Defined.

(** C7 at the in-memory filesystem. *)
Lemma C7_repeated_requests_witness :
  serve "/tmp" MemFS.os "d2"
    (world (snd (serve "/tmp" MemFS.os "d2" fs_plain)))
  = serve "/tmp" MemFS.os "d2" fs_plain.
Proof.
  apply (C7_repeated_requests_answer_alike "/tmp" MemFS.os "d2" fs_plain).
  repeat split; intros; reflexivity.
Defined.

(** C8 at the in-memory filesystem. *)
Lemma C8_filesystem_left_unchanged_witness :
  world (snd (serve "/tmp" MemFS.os "d2" fs_plain)) = fs_plain.
Proof.
  apply (C8_filesystem_left_unchanged "/tmp" MemFS.os "d2" fs_plain).
  repeat split; intros; reflexivity.
Defined.





(* ================================================================== *)
(** * Further properties of the module                                 *)
(* ================================================================== *)

(** ** [validate_file_content] *)

Lemma Return_inj {A} (a b : A) : Return a = Return b -> a = b.
Proof. congruence. Qed.

Lemma validate_none_inv content :
  validate_file_content content = Return None ->
  forallb isspace content = false
  /\ exists encoded, encode_utf8 content = Some encoded
                     /\ len encoded <= MAX_FILE_SIZE_BYTES.
Proof.
  unfold validate_file_content.
  destruct (truthy (strip content)) eqn:Hs; cbn [negb]; [|discriminate].
  destruct (encode_utf8 content) as [encoded|]; [|discriminate].
  destruct (len encoded >? MAX_FILE_SIZE_BYTES) eqn:Hl; [discriminate|].
  intros _. split; [now apply strip_not_blank|].
  exists encoded. split; [reflexivity|].
  rewrite Z.gtb_ltb in Hl. apply Z.ltb_ge in Hl. exact Hl.
Qed.

Lemma validate_some_truthy content msg :
  validate_file_content content = Return (Some msg) ->
  truthy_opt (Some msg) = true.
Proof.
  unfold validate_file_content.
  destruct (truthy (strip content)); cbn [negb].
  - destruct (encode_utf8 content) as [encoded|]; [|discriminate].
    destruct (len encoded >? MAX_FILE_SIZE_BYTES); [|discriminate].
    intros H. apply Return_inj, Some_inj in H. now subst msg.
  - intros H. apply Return_inj, Some_inj in H. now subst msg.
Qed.

Lemma validate_raise_inv content e :
  validate_file_content content = Raise e ->
  exists text, e = UnicodeEncodeError text.
Proof.
  unfold validate_file_content.
  destruct (truthy (strip content)); cbn [negb]; [|discriminate].
  destruct (encode_utf8 content) as [encoded|].
  - destruct (len encoded >? MAX_FILE_SIZE_BYTES); discriminate.
  - intros [= <-]. eauto.
Qed.

(** Answers of [validate_file_content] that cannot be. *)
Ltac absurd_validation :=
  match goal with
  | H : validate_file_content ?c = Raise (FileNotFoundError ?m) |- _ =>
      let t := fresh in let E := fresh in
      destruct (validate_raise_inv c _ H) as [t E]; discriminate E
  | H : validate_file_content ?c = Raise (PermissionError ?m) |- _ =>
      let t := fresh in let E := fresh in
      destruct (validate_raise_inv c _ H) as [t E]; discriminate E
  | H : validate_file_content ?c = Return (Some ?m),
    F : truthy_opt (Some ?m) = false |- _ =>
      rewrite (validate_some_truthy c m H) in F; discriminate F
  | F : truthy_opt None = true |- _ => discriminate F
  end.

(** X1.  [validate_file_content] answers ["File is empty"] exactly for
    the texts that are empty or made of whitespace only, whatever their
    size and whether or not they can be encoded. *)
Theorem X1_file_is_empty_iff_blank (content : pystr) :
  validate_file_content content = Return (Some "File is empty")
  <-> forallb isspace content = true.
Proof.
  split.
  - unfold validate_file_content.
    destruct (truthy (strip content)) eqn:Hs; cbn [negb].
    + destruct (encode_utf8 content) as [encoded|]; [|discriminate].
      destruct (len encoded >? MAX_FILE_SIZE_BYTES); [|discriminate].
      vm_compute. discriminate.
    + intros _. now apply strip_blank.
  - intros H. now apply validate_blank, strip_blank.
Qed.

(** X2.  Whatever the content, [validate_file_content] returns [None],
    or one of its two messages, neither of them empty (so [if error_msg]
    misses no failure), or raises [UnicodeEncodeError]. *)
Theorem X2_every_message_is_truthy (content : pystr) :
  match validate_file_content content with
  | Return (Some msg) =>
      truthy_opt (Some msg) = true
      /\ (msg = "File is empty"
          \/ msg = "File size exceeds maximum limit of 50MB")
  | Return None => truthy_opt None = false
  | Raise e => exists text, e = UnicodeEncodeError text
  end.
Proof.
  unfold validate_file_content.
  destruct (truthy (strip content)); cbn [negb].
  - destruct (encode_utf8 content) as [encoded|]; [|eauto].
    destruct (len encoded >? MAX_FILE_SIZE_BYTES).
    + split; [reflexivity | right; reflexivity].
    + reflexivity.
  - split; [reflexivity | left; reflexivity].
Qed.

(** X3.  For a text read from a file of at most 50 MiB, validation never
    raises and never reports the size: the test on the encoded length
    made after the read cannot fail, and only blank text is refused. *)
Theorem X3_size_check_after_read_is_redundant (data : bytes) (text : pystr) :
  MemFS.read_text data = Return text ->
  len data <= MAX_FILE_SIZE_BYTES ->
  validate_file_content text
    = (if forallb isspace text then Return (Some "File is empty")
       else Return None).
Proof.
  intros Hread Hlen.
  pose proof (read_text_encode _ _ Hread) as Henc.
  destruct (forallb isspace text) eqn:Hb.
  - now apply validate_blank, strip_blank.
  - apply (validate_ok _ _ (proj2 (strip_not_blank text) Hb) Henc).
    pose proof (universal_newlines_len data). lia.
Qed.

(** X3 at the text read from ["a\r\nb"]. *)
Lemma X3_size_check_after_read_witness :
  validate_file_content [0x61; 0x0A; 0x62]
    = (if forallb isspace [0x61; 0x0A; 0x62]
       then Return (Some "File is empty") else Return None).
Proof.
  apply (X3_size_check_after_read_is_redundant [0x61; 0x0D; 0x0A; 0x62]).
  - reflexivity.
  - vm_compute; discriminate.
Defined.

(** ** Returned responses *)

Section Responses.
Context {W : Type} (base : string) (os : OS W).

(** What stands behind a returned response: the four calls, answered
    without an exception, and a text that passed validation. *)
Lemma serve_return_inv digest_id w resp :
  fst (serve base os digest_id w) = Return resp ->
  exists w1 w2 w3 w4 entries name rest size encoded,
    os_path_exists os (base ++ "/" ++ digest_id) w = (true, w1)
    /\ os_listdir os (base ++ "/" ++ digest_id) w1 = (Return entries, w2)
    /\ txt_files entries = name :: rest
    /\ os_path_getsize os ((base ++ "/" ++ digest_id) ++ "/" ++ name) w2
       = (Return size, w3)
    /\ size <= MAX_FILE_SIZE_BYTES
    /\ open_read os ((base ++ "/" ++ digest_id) ++ "/" ++ name) w3
       = (Return (content resp), w4)
    /\ forallb isspace (content resp) = false
    /\ encode_utf8 (content resp) = Some encoded
    /\ len encoded <= MAX_FILE_SIZE_BYTES
    /\ resp = mkResponse 200 (content resp) "text/plain"
                [("Content-Disposition", "attachment; filename=" ++ name);
                 ("Content-Length", str_of_Z (len encoded))]
    /\ calls base os digest_id w
       = [ Ev OpExists (base ++ "/" ++ digest_id) None;
           Ev OpListdir (base ++ "/" ++ digest_id) None;
           Ev OpGetsize ((base ++ "/" ++ digest_id) ++ "/" ++ name) None;
           Ev OpOpenRead ((base ++ "/" ++ digest_id) ++ "/" ++ name) None ].
Proof.
  revert resp. unfold txt_files.
  run_handler os; intros resp Hresp; try discriminate;
    try absurd_validation.
  apply Return_inj in Hresp. subst resp. cbn [content].
  match goal with
  | H : validate_file_content _ = Return None |- _ =>
      destruct (validate_none_inv _ H) as (Hblank & enc & Henc & Hlen)
  end.
  match goal with
  | H : encode_utf8 _ = Some ?b |- _ =>
      assert (b = enc) by congruence; subst b
  end.
  match goal with
  | H : (_ >? _) = false |- _ => rewrite Z.gtb_ltb in H; apply Z.ltb_ge in H
  end.
  do 9 eexists.
  repeat (split; [reflexivity || eassumption|]). reflexivity.
Qed.
End Responses.

(** ** The in-memory filesystem, answer by answer *)

Lemma memfs_exists_inv p s s' :
  os_path_exists MemFS.os p s = (true, s') ->
  s' = s /\ exists n, MemFS.lookup p s = Some n.
Proof.
  cbn [MemFS.os os_path_exists]. unfold MemFS.path_exists.
  destruct (MemFS.lookup p s) as [n|]; intros [= <-]; eauto.
Qed.

Lemma memfs_listdir_inv p s entries s' :
  os_listdir MemFS.os p s = (Return entries, s') ->
  s' = s /\ exists size, MemFS.lookup p s = Some (MemFS.Dir size entries true).
Proof.
  cbn [MemFS.os os_listdir]. unfold MemFS.listdir.
  destruct (MemFS.lookup p s) as [[? ? ?|size es [|]]|]; intros H;
    inversion H; subst; eauto.
Qed.

Lemma memfs_open_read_inv p s text s' :
  open_read MemFS.os p s = (Return text, s') ->
  s' = s /\ exists size data,
    MemFS.lookup p s = Some (MemFS.File size data true)
    /\ MemFS.read_text data = Return text.
Proof.
  cbn [MemFS.os open_read]. unfold MemFS.open_and_read.
  destruct (MemFS.lookup p s) as [[size data [|]|? ? ?]|]; intros H;
    inversion H; subst; eauto.
Qed.

Lemma memfs_getsize_inv p s size data readable n s' :
  MemFS.lookup p s = Some (MemFS.File size data readable) ->
  os_path_getsize MemFS.os p s = (Return n, s') -> n = size.
Proof.
  intros Hl. cbn [MemFS.os os_path_getsize]. unfold MemFS.getsize.
  rewrite Hl. now intros [= <- _].
Qed.

Lemma universal_newlines_no_cr_out_le n : forall l : list Z,
  (List.length l <= n)%nat -> ~ In 13 (universal_newlines l).
Proof.
  induction n as [|n IH]; intros [|x l] Hn; cbn [List.length] in Hn;
    try lia; try (cbn; tauto).
  cbn [universal_newlines]. destruct (Z.eqb_spec x 13) as [->|Hx].
  - destruct l as [|y l']; [cbn; intuition lia|].
    destruct (y =? 10).
    + intros [H|H]; [lia|]. apply (IH l'); [cbn [List.length] in Hn; lia|exact H].
    + intros [H|H]; [lia|]. apply (IH (y :: l')); [lia|exact H].
  - intros [H|H]; [congruence|]. apply (IH l); [lia|exact H].
Qed.

(** Universal newlines leave no carriage return behind. *)
Lemma universal_newlines_no_cr_out (l : list Z) : ~ In 13 (universal_newlines l).
Proof. apply (universal_newlines_no_cr_out_le (List.length l)). lia. Qed.

(** What stands behind a response of the in-memory filesystem. *)
Lemma memfs_return_inv base digest_id s resp :
  fst (serve base MemFS.os digest_id s) = Return resp ->
  exists dsize entries name rest size data text encoded,
    MemFS.lookup (base ++ "/" ++ digest_id) s
      = Some (MemFS.Dir dsize entries true)
    /\ txt_files entries = name :: rest
    /\ MemFS.lookup ((base ++ "/" ++ digest_id) ++ "/" ++ name) s
       = Some (MemFS.File size data true)
    /\ size <= MAX_FILE_SIZE_BYTES
    /\ decode_utf8 data = Some text
    /\ content resp = universal_newlines text
    /\ encode_utf8 (content resp) = Some encoded
    /\ encoded = universal_newlines data
    /\ resp = mkResponse 200 (content resp) "text/plain"
                [("Content-Disposition", "attachment; filename=" ++ name);
                 ("Content-Length", str_of_Z (len encoded))].
Proof.
  intros Hret.
  destruct (serve_return_inv base MemFS.os digest_id s resp Hret)
    as (w1 & w2 & w3 & w4 & entries & name & rest & size & encoded
        & Hex & Hls & Htxt & Hsz & Hsmall & Hrd & _ & Henc & _ & Hresp & _).
  destruct (memfs_exists_inv _ _ _ Hex) as [-> _].
  destruct (memfs_listdir_inv _ _ _ _ Hls) as [-> [dsize Hdir]].
  assert (w3 = s) as -> by
    (cbn [MemFS.os os_path_getsize] in Hsz; unfold MemFS.getsize in Hsz;
     now inversion Hsz).
  destruct (memfs_open_read_inv _ _ _ _ Hrd) as [-> (fsize & data & Hfile & Hread)].
  rewrite (memfs_getsize_inv _ _ _ _ _ _ _ Hfile Hsz) in Hsmall.
  pose proof (read_text_encode _ _ Hread) as Henc'.
  unfold MemFS.read_text in Hread.
  destruct (decode_utf8 data) as [text|] eqn:Hdec; [|discriminate].
  apply Return_inj in Hread.
  exists dsize, entries, name, rest, fsize, data, text, encoded.
  repeat (split; [eassumption || reflexivity || (symmetry; eassumption)|]).
  split; [congruence | assumption].
Qed.

(** ** Decoding what was encoded *)

Lemma encode_char_decode_one c b rest :
  encode_char c = Some b -> decode_one (b ++ rest)%list = Some (c, rest).
Proof.
  unfold encode_char. split_tests; intros Hb; apply Some_inj in Hb; subst b;
    cbn [app]; unfold decode_one, is_cont;
    Z.div_mod_to_equations; split_tests; repeat f_equal; lia.
Qed.

Lemma encode_char_nonempty c b : encode_char c = Some b -> b <> [].
Proof.
  unfold encode_char. split_tests; intros Hb; apply Some_inj in Hb; subst b;
    discriminate.
Qed.

Lemma encode_decode_loop : forall t bs fuel,
  encode_utf8 t = Some bs -> (List.length t <= fuel)%nat ->
  decode_loop fuel bs = Some t.
Proof.
  induction t as [|c t IH]; intros bs fuel; cbn [encode_utf8 List.length].
  - intros [= <-] _. now destruct fuel.
  - destruct (encode_char c) as [b|] eqn:Hc; [|discriminate].
    destruct (encode_utf8 t) as [bs'|] eqn:Ht; [|discriminate].
    intros Hbs Hfuel. apply Some_inj in Hbs. subst bs.
    destruct fuel as [|fuel]; [lia|].
    pose proof (encode_char_decode_one c b bs' Hc) as Hone.
    destruct b as [|x b]; [now apply encode_char_nonempty in Hc|].
    cbn [app decode_loop] in *. rewrite Hone.
    rewrite (IH bs' fuel eq_refl) by lia. reflexivity.
Qed.

Lemma encode_length : forall t bs,
  encode_utf8 t = Some bs -> (List.length t <= List.length bs)%nat.
Proof.
  induction t as [|c t IH]; intros bs; cbn [encode_utf8 List.length]; [lia|].
  destruct (encode_char c) as [b|] eqn:Hc; [|discriminate].
  destruct (encode_utf8 t) as [bs'|] eqn:Ht; [|discriminate].
  intros Hbs. apply Some_inj in Hbs. subst bs.
  rewrite length_app. specialize (IH bs' eq_refl).
  destruct b as [|x b]; [now apply encode_char_nonempty in Hc|].
  cbn [List.length]. lia.
Qed.

(** [s.encode('utf-8').decode('utf-8') == s]. *)
Lemma encode_decode t bs : encode_utf8 t = Some bs -> decode_utf8 bs = Some t.
Proof.
  intros H. apply encode_decode_loop; [exact H | now apply encode_length].
Qed.

(** ** [str.endswith] *)

Lemma substring_all s : substring 0 (String.length s) s = s.
Proof. induction s as [|c s IH]; cbn; [reflexivity | now rewrite IH]. Qed.

Lemma substring_skip p k s :
  substring (String.length p) k (p ++ s) = substring 0 k s.
Proof. induction p as [|c p IH]; cbn; [reflexivity | exact IH]. Qed.

Lemma length_append p s :
  String.length (p ++ s) = (String.length p + String.length s)%nat.
Proof. induction p as [|c p IH]; cbn; [reflexivity | now rewrite IH]. Qed.

Lemma substring_split : forall s a,
  (a <= String.length s)%nat ->
  s = substring 0 a s ++ substring a (String.length s - a) s.
Proof.
  induction s as [|c s IH]; intros [|a] Ha; cbn in *; try lia.
  - reflexivity.
  - now rewrite substring_all.
  - rewrite <- IH by lia. reflexivity.
Qed.

Lemma endswith_iff s suffix :
  endswith s suffix = true <-> exists p, s = p ++ suffix.
Proof.
  unfold endswith. rewrite andb_true_iff, Nat.leb_le, String.eqb_eq. split.
  - intros [Hle Hsub].
    exists (substring 0 (String.length s - String.length suffix) s).
    pose proof (substring_split s (String.length s - String.length suffix))
      as Hsplit.
    replace (String.length s - (String.length s - String.length suffix))%nat
      with (String.length suffix) in Hsplit by lia.
    rewrite Hsub in Hsplit. apply Hsplit. lia.
  - intros [p ->]. rewrite length_append. split; [lia|].
    replace (String.length p + String.length suffix - String.length suffix)%nat
      with (String.length p) by lia.
    now rewrite substring_skip, substring_all.
Qed.

(** ** [str] of an integer *)

Lemma str_of_Z_reads_back (n : Z) :
  option_map Z.of_int (NilZero.int_of_string (str_of_Z n)) = Some n.
Proof.
  unfold str_of_Z. rewrite NilZero.isi.
  - cbn [option_map]. now rewrite DecimalZ.of_to.
  - destruct n; cbn; try discriminate.
    intros [= H]. now apply DecimalPos.Unsigned.to_uint_nonnil in H.
  - destruct n; cbn; try discriminate.
    intros [= H]. now apply DecimalPos.Unsigned.to_uint_nonnil in H.
Qed.

(** ** Every request *)

Section Requests.
Context {W : Type} (base : string) (os : OS W).

(** X4.  Whatever the filesystem answers, a request ends in a response
    with status 200 or in an [HTTPException] that is one of 404 "Digest
    not found", 403 "Permission denied accessing digest" and 500
    "Internal server error": no other exception leaves the handler, and
    413 and 422 are never answered. *)
Theorem X4_answers_are_200_403_404_or_500 (digest_id : string) (w : W) :
  match fst (serve base os digest_id w) with
  | Return resp => status_code resp = 200
  | Raise (HTTPException status detail) =>
      (status = 404 /\ detail = "Digest not found")
      \/ (status = 403 /\ detail = "Permission denied accessing digest")
      \/ (status = 500 /\ detail = "Internal server error")
  | Raise _ => False
  end.
Proof. run_handler os; auto. Qed.

(** X5.  A returned response stands for a full, clean run: its status is
    200 and its media type [text/plain], its content is not blank and
    encodes to at most 50 MiB, its two headers name a file and give the
    encoded length, and exactly four calls were made, none of which
    raised: the existence test and the listing of the directory, the
    size query and the read of that one file. *)
Theorem X5_a_response_was_fully_validated
    (digest_id : string) (w : W) (resp : Response) :
  fst (serve base os digest_id w) = Return resp ->
  exists name encoded,
    status_code resp = 200
    /\ media_type resp = "text/plain"
    /\ forallb isspace (content resp) = false
    /\ body resp = Some encoded
    /\ len encoded <= MAX_FILE_SIZE_BYTES
    /\ headers resp
       = [("Content-Disposition", "attachment; filename=" ++ name);
          ("Content-Length", str_of_Z (len encoded))]
    /\ calls base os digest_id w
       = [ Ev OpExists (base ++ "/" ++ digest_id) None;
           Ev OpListdir (base ++ "/" ++ digest_id) None;
           Ev OpGetsize ((base ++ "/" ++ digest_id) ++ "/" ++ name) None;
           Ev OpOpenRead ((base ++ "/" ++ digest_id) ++ "/" ++ name) None ].
Proof.
  intros Hret.
  destruct (serve_return_inv base os digest_id w resp Hret)
    as (_ & _ & _ & _ & _ & name & _ & _ & encoded
        & _ & _ & _ & _ & _ & _ & Hblank & Henc & Hlen & Hresp & Hcalls).
  exists name, encoded. unfold body. rewrite Hresp at 1 2 5.
  cbn [status_code media_type headers].
  repeat (split; [reflexivity || assumption|]). exact Hcalls.
Qed.

(** X6.  The calls of a request are an initial part, at least one call
    long, of: existence test of the directory, listing of the directory,
    size query of a file under it, read of that same file.  No call is
    made twice and none out of order. *)
Theorem X6_calls_come_in_one_order (digest_id : string) (w : W) :
  exists k name,
    map (fun ev => (ev_op ev, ev_path ev)) (calls base os digest_id w)
    = firstn (S k)
        [ (OpExists, base ++ "/" ++ digest_id);
          (OpListdir, base ++ "/" ++ digest_id);
          (OpGetsize, (base ++ "/" ++ digest_id) ++ "/" ++ name);
          (OpOpenRead, (base ++ "/" ++ digest_id) ++ "/" ++ name) ].
Proof.
  run_handler os;
    first [ now (exists 0%nat, "")
          | now (exists 1%nat, "")
          | now (eexists 2%nat, _)
          | now (eexists 3%nat, _) ].
Qed.

(** X7.  Only the last call of a request may have raised: once a call
    raises, the handler makes no further call. *)
Theorem X7_nothing_is_called_after_a_failure (digest_id : string) (w : W) :
  Forall (fun ev => ev_raised ev = None)
    (removelast (calls base os digest_id w)).
Proof.
  run_handler os; cbn [removelast]; repeat (apply Forall_cons; [reflexivity|]);
    apply Forall_nil.
Qed.

Ltac pick_raising_call :=
  first
    [ now (eexists _, _; split; [left; reflexivity | reflexivity])
    | now (eexists _, _; split; [right; left; reflexivity | reflexivity])
    | now (eexists _, _; split; [right; right; left; reflexivity | reflexivity])
    | now (eexists _, _; split;
           [right; right; right; left; reflexivity | reflexivity]) ].

Ltac no_raising_call :=
  let ev := fresh "ev" in let msg := fresh "msg" in
  let Hin := fresh "Hin" in let Hr := fresh "Hr" in
  intros (ev & msg & Hin & Hr); cbn [In] in Hin;
  repeat (destruct Hin as [<-|Hin]); try contradiction;
  cbn [ev_raised] in Hr; discriminate Hr.

(** X8.  The status is 404 exactly when a filesystem call raised
    [FileNotFoundError], and 403 exactly when one raised
    [PermissionError]: neither status is ever answered for another
    reason. *)
Theorem X8_a_404_or_403_comes_from_a_failed_call (digest_id : string) (w : W) :
  (http_status (fst (serve base os digest_id w)) = 404
   <-> exists ev msg, In ev (calls base os digest_id w)
                      /\ ev_raised ev = Some (FileNotFoundError msg))
  /\ (http_status (fst (serve base os digest_id w)) = 403
      <-> exists ev msg, In ev (calls base os digest_id w)
                         /\ ev_raised ev = Some (PermissionError msg)).
Proof.
  run_handler os; try absurd_validation;
    (split; split;
     [ intros Hs; first [discriminate Hs | pick_raising_call]
     | first [no_raising_call | intros _; reflexivity]
     | intros Hs; first [discriminate Hs | pick_raising_call]
     | first [no_raising_call | intros _; reflexivity] ]).
Qed.

(** X9.  A request that returns a response logs exactly one record, at
    level [INFO]; a request that fails logs one or two records, the
    last of them at level [ERROR]. *)
Theorem X9_every_request_is_logged (digest_id : string) (w : W) :
  match fst (serve base os digest_id w) with
  | Return _ =>
      logs (snd (serve base os digest_id w))
      = [LogRecord INFO
           ("Successfully processed download request for digest_id: "
            ++ digest_id) None]
  | Raise _ =>
      exists older msg exc,
        logs (snd (serve base os digest_id w))
        = (older ++ [LogRecord ERROR msg exc])%list
        /\ (List.length older <= 1)%nat
  end.
Proof.
  run_handler os;
    first [ reflexivity
          | now (exists []; eexists _, _; split; [reflexivity | cbn; lia])
          | now (eexists [_]; eexists _, _; split; [reflexivity | cbn; lia]) ].
Qed.

End Requests.

(** ** Requests over the in-memory filesystem *)

(** X10.  Two filesystems that agree on the digest directory and on
    every name directly under it give the same outcome and the same
    log: nothing else in the filesystem is looked at. *)
Theorem X10_only_the_digest_directory_matters
    (base digest_id : string) (s s' : MemFS.fs) :
  MemFS.lookup (base ++ "/" ++ digest_id) s
    = MemFS.lookup (base ++ "/" ++ digest_id) s' ->
  (forall name,
     MemFS.lookup ((base ++ "/" ++ digest_id) ++ "/" ++ name) s
       = MemFS.lookup ((base ++ "/" ++ digest_id) ++ "/" ++ name) s') ->
  fst (serve base MemFS.os digest_id s) = fst (serve base MemFS.os digest_id s')
  /\ logs (snd (serve base MemFS.os digest_id s))
     = logs (snd (serve base MemFS.os digest_id s')).
Proof.
  intros Hdir Hfile. hsimpl.
  cbn [MemFS.os os_path_exists os_listdir os_path_getsize open_read].
  unfold MemFS.path_exists, MemFS.listdir, MemFS.getsize, MemFS.open_and_read,
    MemFS.ENOENT, MemFS.ENOTDIR, MemFS.EACCES, MemFS.EISDIR.
  repeat (hsimpl; rewrite <- ?Hdir; rewrite <- ?Hfile;
          match goal with
          | E : MemFS.lookup ?p ?t = Some _ |- context [MemFS.lookup ?p ?t] =>
              rewrite E
          | E : MemFS.lookup ?p ?t = None |- context [MemFS.lookup ?p ?t] =>
              rewrite E
          | |- context [MemFS.lookup ?p ?t] =>
              destruct (MemFS.lookup p t) as [[? ? [|]|? ? [|]]|] eqn:?
          | |- context [filter ?f ?l] =>
              destruct (filter f l) as [|? ?] eqn:?
          | |- context [?n >? MAX_FILE_SIZE_BYTES] =>
              destruct (n >? MAX_FILE_SIZE_BYTES) eqn:?
          | |- context [MemFS.read_text ?d] =>
              destruct (MemFS.read_text d) as [?|[]] eqn:?
          | |- context [validate_file_content ?t] =>
              destruct (validate_file_content t) as [[?|]|[]] eqn:?
          | |- context [truthy_opt ?o] => destruct (truthy_opt o) eqn:?
          | |- context [encode_utf8 ?t] =>
              destruct (encode_utf8 t) as [?|] eqn:?
          end);
    split; reflexivity.
Qed.

(** X10 with another digest directory added to the filesystem. *)
Lemma X10_only_the_digest_directory_witness :
  fst (serve "/tmp" MemFS.os "d2" fs_plain)
    = fst (serve "/tmp" MemFS.os "d2" (fs_no_txt ++ fs_plain)%list)
  /\ logs (snd (serve "/tmp" MemFS.os "d2" fs_plain))
     = logs (snd (serve "/tmp" MemFS.os "d2" (fs_no_txt ++ fs_plain)%list)).
Proof.
  apply (X10_only_the_digest_directory_matters "/tmp" "d2" fs_plain
           (fs_no_txt ++ fs_plain)%list).
  - reflexivity.
  - intros name. reflexivity.
Defined.

(** X11.  When the selected file can be read but its bytes are not
    valid UTF-8, the read raises [UnicodeDecodeError] and the answer is
    500 "Internal server error". *)
Theorem X11_a_file_that_is_not_utf8_answers_500
    (base digest_id : string) (s : MemFS.fs)
    (dsize size : Z) (entries : list string) (name : string)
    (rest : list string) (data : bytes) :
  MemFS.lookup (base ++ "/" ++ digest_id) s
    = Some (MemFS.Dir dsize entries true) ->
  txt_files entries = name :: rest ->
  MemFS.lookup ((base ++ "/" ++ digest_id) ++ "/" ++ name) s
    = Some (MemFS.File size data true) ->
  size <= MAX_FILE_SIZE_BYTES ->
  decode_utf8 data = None ->
  fst (serve base MemFS.os digest_id s)
    = Raise (HTTPException 500 "Internal server error").
Proof.
  intros Hdir Htxt Hfile Hsize Hdec.
  pose proof (memfs_open_read _ _ _ _ Hfile) as Hopen.
  unfold MemFS.read_text in Hopen. rewrite Hdec in Hopen.
  pose proof (body_read_raises base MemFS.os digest_id s [] s entries s name
                rest size s _ s
                (memfs_exists_present _ _ _ Hdir) (memfs_listdir _ _ _ _ Hdir)
                Htxt (memfs_getsize_file _ _ _ _ _ Hfile) Hsize Hopen)
    as Hbody.
  unfold serve. now rewrite (download_ingest_raise _ _ _ _ _ _ Hbody).
Qed.

(** X11 at a Latin-1 file. *)
Lemma X11_a_file_that_is_not_utf8_witness :
  fst (serve "/tmp" MemFS.os "d8" fs_latin1)
    = Raise (HTTPException 500 "Internal server error").
Proof.
  apply (X11_a_file_that_is_not_utf8_answers_500 "/tmp" "d8" fs_latin1
           4096 4 ["digest.txt"] "digest.txt" [] [0x63; 0x61; 0x66; 0xE9]).
  - reflexivity.
  - reflexivity.
  - reflexivity.
  - vm_compute; discriminate.
  - reflexivity.
Defined.

(** X12.  When the digest path is a regular file, the existence test
    passes (it does not ask for a directory), the listing raises
    [NotADirectoryError] and the answer is 500. *)
Theorem X12_a_regular_file_in_place_of_the_directory_answers_500
    (base digest_id : string) (s : MemFS.fs)
    (size : Z) (data : bytes) (readable : bool) :
  MemFS.lookup (base ++ "/" ++ digest_id) s
    = Some (MemFS.File size data readable) ->
  fst (serve base MemFS.os digest_id s)
    = Raise (HTTPException 500 "Internal server error")
  /\ calls base MemFS.os digest_id s
     = [ Ev OpExists (base ++ "/" ++ digest_id) None;
         Ev OpListdir (base ++ "/" ++ digest_id)
           (Some (MemFS.ENOTDIR (base ++ "/" ++ digest_id))) ].
Proof.
  intros Hfile.
  assert (Hls : os_listdir MemFS.os (base ++ "/" ++ digest_id) s
                = (Raise (MemFS.ENOTDIR (base ++ "/" ++ digest_id)), s)).
  { cbn [MemFS.os os_listdir]. unfold MemFS.listdir. now rewrite Hfile. }
  pose proof (memfs_exists_present _ _ _ Hfile) as Hex.
  pose proof (body_listdir_raises base MemFS.os digest_id s [] s _ s Hex Hls)
    as Hbody.
  pose proof (body_listdir_raises base (traced MemFS.os) digest_id (s, []) []
                _ _ _ (traced_exists MemFS.os _ _ _ _ _ Hex)
                (traced_listdir MemFS.os _ _ _ _ _ Hls)) as Htraced.
  unfold calls, serve.
  rewrite (download_ingest_raise _ _ _ _ _ _ Hbody).
  rewrite (download_ingest_raise _ _ _ _ _ _ Htraced).
  split; reflexivity.
Qed.

(** X12 with a text file taken for the digest directory. *)
Lemma X12_a_regular_file_in_place_of_the_directory_witness :
  fst (serve "/tmp/d2" MemFS.os "digest.txt" fs_plain)
    = Raise (HTTPException 500 "Internal server error")
  /\ calls "/tmp/d2" MemFS.os "digest.txt" fs_plain
     = [ Ev OpExists ("/tmp/d2" ++ "/" ++ "digest.txt") None;
         Ev OpListdir ("/tmp/d2" ++ "/" ++ "digest.txt")
           (Some (MemFS.ENOTDIR ("/tmp/d2" ++ "/" ++ "digest.txt"))) ].
Proof.
  apply (X12_a_regular_file_in_place_of_the_directory_answers_500
           "/tmp/d2" "digest.txt" fs_plain 3 [0x68; 0x69; 0x0A] true).
  reflexivity.
Defined.



(** X14.  The candidates kept from a listing are exactly its entries of
    the form [stem ++ ".txt"] (the stem may be empty, and the case of
    the letters counts). *)
Theorem X14_text_files_are_the_names_ending_in_dot_txt
    (entries : list string) (name : string) :
  In name (txt_files entries)
  <-> In name entries /\ exists stem, name = stem ++ ".txt".
Proof.
  unfold txt_files. rewrite filter_In. now rewrite endswith_iff.
Qed.

Section Bodies.
Context {W : Type} (base : string) (os : OS W).

(** X15.  The body of a returned response is valid UTF-8 and decodes
    back to the content that was validated, which is not blank. *)
Theorem X15_the_body_decodes_to_the_content
    (digest_id : string) (w : W) (resp : Response) :
  fst (serve base os digest_id w) = Return resp ->
  exists encoded,
    body resp = Some encoded
    /\ decode_utf8 encoded = Some (content resp)
    /\ forallb isspace (content resp) = false.
Proof.
  intros Hret.
  destruct (serve_return_inv base os digest_id w resp Hret)
    as (_ & _ & _ & _ & _ & _ & _ & _ & encoded
        & _ & _ & _ & _ & _ & _ & Hblank & Henc & _).
  exists encoded. unfold body.
  split; [exact Henc|]. split; [now apply encode_decode | exact Hblank].
Qed.

(** X17.  The [Content-Length] header of a returned response is a
    decimal numeral that reads back as the number of bytes of the body,
    at most 50 MiB. *)
Theorem X17_content_length_reads_back_as_the_body_length
    (digest_id : string) (w : W) (resp : Response) :
  fst (serve base os digest_id w) = Return resp ->
  exists encoded value,
    body resp = Some encoded
    /\ header "Content-Length" (headers resp) = Some value
    /\ option_map Z.of_int (NilZero.int_of_string value) = Some (len encoded)
    /\ len encoded <= MAX_FILE_SIZE_BYTES.
Proof.
  intros Hret.
  destruct (serve_return_inv base os digest_id w resp Hret)
    as (_ & _ & _ & _ & _ & name & _ & _ & encoded
        & _ & _ & _ & _ & _ & _ & _ & Henc & Hlen & Hresp & _).
  exists encoded, (str_of_Z (len encoded)). unfold body.
  split; [exact Henc|]. rewrite Hresp. cbn [headers].
  split; [reflexivity|]. split; [apply str_of_Z_reads_back | exact Hlen].
Qed.
End Bodies.

(** X16.  In the in-memory filesystem a returned response means: the
    digest directory exists and can be listed; the file served,
    named in [Content-Disposition], is the first entry ending in [.txt]
    in listing order; it is a readable regular file reported at no more
    than 50 MiB holding valid UTF-8; the content is its text with
    universal newlines and the body its bytes with universal newlines. *)
Theorem X16_what_a_response_says_of_the_filesystem
    (base digest_id : string) (s : MemFS.fs) (resp : Response) :
  fst (serve base MemFS.os digest_id s) = Return resp ->
  exists dsize entries name size data text,
    MemFS.lookup (base ++ "/" ++ digest_id) s
      = Some (MemFS.Dir dsize entries true)
    /\ hd_error (txt_files entries) = Some name
    /\ MemFS.lookup ((base ++ "/" ++ digest_id) ++ "/" ++ name) s
       = Some (MemFS.File size data true)
    /\ size <= MAX_FILE_SIZE_BYTES
    /\ decode_utf8 data = Some text
    /\ content resp = universal_newlines text
    /\ body resp = Some (universal_newlines data)
    /\ header "Content-Disposition" (headers resp)
       = Some ("attachment; filename=" ++ name).
Proof.
  intros Hret.
  destruct (memfs_return_inv base digest_id s resp Hret)
    as (dsize & entries & name & rest & size & data & text & encoded
        & Hdir & Htxt & Hfile & Hsize & Hdec & Hcontent & Henc & Hbytes
        & Hresp).
  exists dsize, entries, name, size, data, text.
  split; [exact Hdir|]. split; [now rewrite Htxt|].
  split; [exact Hfile|]. split; [exact Hsize|]. split; [exact Hdec|].
  split; [exact Hcontent|]. unfold body. rewrite Henc, Hbytes.
  split; [reflexivity|]. rewrite Hresp. reflexivity.
Qed.

(** X18.  Neither the content nor the body of a response served from
    the in-memory filesystem holds a carriage return. *)
Theorem X18_a_body_holds_no_carriage_return
    (base digest_id : string) (s : MemFS.fs) (resp : Response)
    (encoded : bytes) :
  fst (serve base MemFS.os digest_id s) = Return resp ->
  body resp = Some encoded ->
  ~ In 0x0D (content resp) /\ ~ In 0x0D encoded.
Proof.
  intros Hret Hbody.
  destruct (memfs_return_inv base digest_id s resp Hret)
    as (_ & _ & _ & _ & _ & data & text & encoded'
        & _ & _ & _ & _ & _ & Hcontent & Henc & Hbytes & _).
  unfold body in Hbody. rewrite Henc in Hbody. apply Some_inj in Hbody.
  subst encoded' encoded. rewrite Hcontent.
  split; apply universal_newlines_no_cr_out.
Qed.

(** ** The statuses of the in-memory filesystem *)

(** One step of a request over the in-memory filesystem: the next lookup
    or test is settled, by what is known of it or by cases. *)
Ltac memfs_step :=
  hsimpl;
  match goal with
  | E : MemFS.lookup ?p ?t = Some _ |- context [MemFS.lookup ?p ?t] =>
      rewrite E
  | E : MemFS.lookup ?p ?t = None |- context [MemFS.lookup ?p ?t] =>
      rewrite E
  | |- context [MemFS.lookup ?p ?t] =>
      destruct (MemFS.lookup p t) as [[? ? [|]|? ? [|]]|] eqn:?
  | |- context [filter ?f ?l] =>
      destruct (filter f l) as [|? ?] eqn:?
  | |- context [?n >? MAX_FILE_SIZE_BYTES] =>
      destruct (n >? MAX_FILE_SIZE_BYTES) eqn:?
  | |- context [decode_utf8 ?d] =>
      destruct (decode_utf8 d) as [?|] eqn:?
  | |- context [validate_file_content ?t] =>
      destruct (validate_file_content t) as [[?|]|?] eqn:?
  | |- context [truthy_opt ?o] => destruct (truthy_opt o) eqn:?
  | |- context [encode_utf8 ?t] =>
      destruct (encode_utf8 t) as [?|] eqn:?
  | |- context [match ?e with FileNotFoundError _ => _ | _ => _ end] =>
      destruct e
  end.

Ltac run_memfs :=
  hsimpl;
  cbn [MemFS.os os_path_exists os_listdir os_path_getsize open_read];
  unfold MemFS.path_exists, MemFS.listdir, MemFS.getsize, MemFS.open_and_read,
    MemFS.ENOENT, MemFS.ENOTDIR, MemFS.EACCES, MemFS.EISDIR, MemFS.read_text;
  repeat memfs_step; hsimpl.

Ltac lookups_agree :=
  unfold txt_files in *;
  repeat match goal with
    | H : exists _, _ |- _ => destruct H
    | H : _ /\ _ |- _ => destruct H
    | H : _ \/ _ |- _ => destruct H
    end;
  repeat match goal with
    | H : Some _ = Some _ |- _ => inversion H; subst; clear H
    | H : Some _ = None |- _ => discriminate H
    | H : None = Some _ |- _ => discriminate H
    | E : MemFS.lookup ?p ?t = _, H : MemFS.lookup ?p ?t = _ |- _ =>
        rewrite E in H; first [discriminate H | inversion H; subst; clear H]
    | E : filter ?f ?l = _, H : filter ?f ?l = _ |- _ =>
        rewrite E in H; first [discriminate H | inversion H; subst; clear H]
    end.

(** X20.  In the in-memory filesystem the status is 404 exactly when
    the directory can be listed and its first entry ending in [.txt] has
    no node behind it; in particular a missing directory and a
    directory without text files never give 404. *)
Theorem X20_a_404_means_a_listed_file_is_gone
    (base digest_id : string) (s : MemFS.fs) :
  http_status (fst (serve base MemFS.os digest_id s)) = 404
  <-> exists dsize entries name rest,
        MemFS.lookup (base ++ "/" ++ digest_id) s
          = Some (MemFS.Dir dsize entries true)
        /\ txt_files entries = name :: rest
        /\ MemFS.lookup ((base ++ "/" ++ digest_id) ++ "/" ++ name) s = None.
Proof.
  run_memfs; try absurd_validation;
    (split; [intros Hs; simpl in Hs;
             first [discriminate Hs | solve [unfold txt_files; eauto 10]]
            | intros H; first [reflexivity | now lookups_agree]]).
Qed.



(** ** The theorems at the example worlds *)

(** X5 at a directory holding one file, ["hi\n"]. *)
Lemma X5_a_response_was_fully_validated_witness :
  exists name encoded,
    status_code (mkResponse 200 [0x68; 0x69; 0x0A] "text/plain"
                   [("Content-Disposition", "attachment; filename=digest.txt");
                    ("Content-Length", "3")]) = 200
    /\ media_type (mkResponse 200 [0x68; 0x69; 0x0A] "text/plain"
                     [("Content-Disposition", "attachment; filename=digest.txt");
                      ("Content-Length", "3")]) = "text/plain"
    /\ forallb isspace
         (content (mkResponse 200 [0x68; 0x69; 0x0A] "text/plain"
                     [("Content-Disposition", "attachment; filename=digest.txt");
                      ("Content-Length", "3")])) = false
    /\ body (mkResponse 200 [0x68; 0x69; 0x0A] "text/plain"
               [("Content-Disposition", "attachment; filename=digest.txt");
                ("Content-Length", "3")]) = Some encoded
    /\ len encoded <= MAX_FILE_SIZE_BYTES
    /\ headers (mkResponse 200 [0x68; 0x69; 0x0A] "text/plain"
                  [("Content-Disposition", "attachment; filename=digest.txt");
                   ("Content-Length", "3")])
       = [("Content-Disposition", "attachment; filename=" ++ name);
          ("Content-Length", str_of_Z (len encoded))]
    /\ calls "/tmp" MemFS.os "d2" fs_plain
       = [ Ev OpExists ("/tmp" ++ "/" ++ "d2") None;
           Ev OpListdir ("/tmp" ++ "/" ++ "d2") None;
           Ev OpGetsize (("/tmp" ++ "/" ++ "d2") ++ "/" ++ name) None;
           Ev OpOpenRead (("/tmp" ++ "/" ++ "d2") ++ "/" ++ name) None ].
Proof.
  apply (X5_a_response_was_fully_validated "/tmp" MemFS.os "d2" fs_plain).
  reflexivity.
Defined.

(** X15 at the same directory. *)
Lemma X15_the_body_decodes_to_the_content_witness :
  exists encoded,
    body (mkResponse 200 [0x68; 0x69; 0x0A] "text/plain"
            [("Content-Disposition", "attachment; filename=digest.txt");
             ("Content-Length", "3")]) = Some encoded
    /\ decode_utf8 encoded
       = Some (content (mkResponse 200 [0x68; 0x69; 0x0A] "text/plain"
                          [("Content-Disposition",
                            "attachment; filename=digest.txt");
                           ("Content-Length", "3")]))
    /\ forallb isspace
         (content (mkResponse 200 [0x68; 0x69; 0x0A] "text/plain"
                     [("Content-Disposition", "attachment; filename=digest.txt");
                      ("Content-Length", "3")])) = false.
Proof.
  apply (X15_the_body_decodes_to_the_content "/tmp" MemFS.os "d2" fs_plain).
  reflexivity.
Defined.

(** X17 at the same directory. *)
Lemma X17_content_length_reads_back_witness :
  exists encoded value,
    body (mkResponse 200 [0x68; 0x69; 0x0A] "text/plain"
            [("Content-Disposition", "attachment; filename=digest.txt");
             ("Content-Length", "3")]) = Some encoded
    /\ header "Content-Length"
         (headers (mkResponse 200 [0x68; 0x69; 0x0A] "text/plain"
                     [("Content-Disposition", "attachment; filename=digest.txt");
                      ("Content-Length", "3")])) = Some value
    /\ option_map Z.of_int (NilZero.int_of_string value) = Some (len encoded)
    /\ len encoded <= MAX_FILE_SIZE_BYTES.
Proof.
  apply (X17_content_length_reads_back_as_the_body_length
           "/tmp" MemFS.os "d2" fs_plain).
  reflexivity.
Defined.

(** X16 at the file with a Windows line ending. *)
Lemma X16_what_a_response_says_witness :
  exists dsize entries name size data text,
    MemFS.lookup ("/tmp" ++ "/" ++ "d3") fs_crlf
      = Some (MemFS.Dir dsize entries true)
    /\ hd_error (txt_files entries) = Some name
    /\ MemFS.lookup (("/tmp" ++ "/" ++ "d3") ++ "/" ++ name) fs_crlf
       = Some (MemFS.File size data true)
    /\ size <= MAX_FILE_SIZE_BYTES
    /\ decode_utf8 data = Some text
    /\ content (mkResponse 200 [0x61; 0x0A; 0x62] "text/plain"
                  [("Content-Disposition", "attachment; filename=digest.txt");
                   ("Content-Length", "3")]) = universal_newlines text
    /\ body (mkResponse 200 [0x61; 0x0A; 0x62] "text/plain"
               [("Content-Disposition", "attachment; filename=digest.txt");
                ("Content-Length", "3")]) = Some (universal_newlines data)
    /\ header "Content-Disposition"
         (headers (mkResponse 200 [0x61; 0x0A; 0x62] "text/plain"
                     [("Content-Disposition", "attachment; filename=digest.txt");
                      ("Content-Length", "3")]))
       = Some ("attachment; filename=" ++ name).
Proof.
  apply (X16_what_a_response_says_of_the_filesystem "/tmp" "d3" fs_crlf).
  reflexivity.
Defined.

(** X18 at the file with a Windows line ending. *)
Lemma X18_a_body_holds_no_carriage_return_witness :
  ~ In 0x0D (content (mkResponse 200 [0x61; 0x0A; 0x62] "text/plain"
                        [("Content-Disposition",
                          "attachment; filename=digest.txt");
                         ("Content-Length", "3")]))
  /\ ~ In 0x0D [0x61; 0x0A; 0x62].
Proof.
  apply (X18_a_body_holds_no_carriage_return "/tmp" "d3" fs_crlf).
  - reflexivity.
  - reflexivity.
Defined.
